(** * ZoomAttendanceBot: the attendance report engine of [zoom.py] and
    [zoom_cron.py], embedded in Rocq.

    The two source files carry the same [TimeHelper], [ZoomAPI] and
    [AttendanceReporter] classes (the cron variant replaces [print] by
    [logging]); one embedding serves both.

    Conventions of the embedding.
    - A Python [str] is a [string]; a character is a code point below 256
      (ASCII and Latin-1), compared by code point as Python does.
    - A JSON object read with [d.get(key, default)] is a record of [option]
      fields: [None] is an absent key, and [get_or] applies the default.
    - A Python [dict] is an insertion-ordered association list ([Dict]):
      assigning to an existing key keeps its position, a new key goes last.
    - Code that can raise returns a [result]; an [except] clause is a match on
      the exception. Library calls that the repository does not define
      (HTTP responses, the clock, pytz and strftime) are arguments. *)

From Stdlib Require Import Strings.String Strings.Ascii.
From Stdlib Require Import ZArith NArith List Bool Lia.
From Stdlib Require Import Sorting.Permutation Sorting.Sorted.
From Stdlib Require Import Numbers.DecimalString.
Import ListNotations.

Local Open Scope string_scope.
Local Open Scope Z_scope.

(* ================================================================== *)
(** * Exceptions and results *)

Inductive PyExn : Type :=
| IndexError
| OverflowError.

Inductive result (A : Type) : Type :=
| Ok (a : A)
| Raise (e : PyExn).

Arguments Ok {A} a.
Arguments Raise {A} e.

Definition bind {A B : Type} (r : result A) (k : A -> result B) : result B :=
  match r with
  | Ok a => k a
  | Raise e => Raise e
  end.

Notation "x <- r ;; k" := (bind r (fun x => k))
  (at level 61, r at next level, right associativity).

(** [d.get(key, default)] on a field that may be absent. *)
Definition get_or {A : Type} (field : option A) (default : A) : A :=
  match field with
  | Some v => v
  | None => default
  end.

(* ================================================================== *)
(** * Python strings *)

Module PyStr.

Definition code (c : ascii) : N := N_of_ascii c.

Definition in_range (lo hi : N) (c : ascii) : bool :=
  (N.leb lo (code c) && N.leb (code c) hi)%bool.

(** [str.isspace] on one character: TAB..CR, FS..US, SPACE, NEL, NBSP. *)
Definition is_space (c : ascii) : bool :=
  (in_range 9 13 c || in_range 28 32 c
   || N.eqb (code c) 133 || N.eqb (code c) 160)%bool.

Definition is_digit (c : ascii) : bool := in_range 48 57 c.

(** [str.lower] on one character: A-Z, and the Latin-1 capitals
    (U+00C0..U+00DE without the multiplication sign U+00D7). *)
Definition lower_char (c : ascii) : ascii :=
  if (in_range 65 90 c
      || (in_range 192 222 c && negb (N.eqb (code c) 215)))%bool
  then ascii_of_N (code c + 32)
  else c.

Fixpoint lower (s : string) : string :=
  match s with
  | EmptyString => EmptyString
  | String c s' => String (lower_char c) (lower s')
  end.

Fixpoint lstrip (s : string) : string :=
  match s with
  | EmptyString => EmptyString
  | String c s' => if is_space c then lstrip s' else s
  end.

Fixpoint rstrip (s : string) : string :=
  match s with
  | EmptyString => EmptyString
  | String c s' =>
      match rstrip s' with
      | EmptyString => if is_space c then EmptyString else String c EmptyString
      | r => String c r
      end
  end.

(** [s.strip()] *)
Definition strip (s : string) : string := rstrip (lstrip s).

(** Truthiness of a string: [if s:] *)
Definition truthy (s : string) : bool :=
  match s with
  | EmptyString => false
  | String _ _ => true
  end.

(** [s[:n]] *)
Definition take (n : nat) (s : string) : string := substring 0 n s.

(** [s[-1]], [None] for the [IndexError] of the empty string. *)
Fixpoint last_char (s : string) : option ascii :=
  match s with
  | EmptyString => None
  | String c EmptyString => Some c
  | String _ s' => last_char s'
  end.

(** [s[:-1]] *)
Fixpoint but_last (s : string) : string :=
  match s with
  | EmptyString => EmptyString
  | String _ EmptyString => EmptyString
  | String c s' => String c (but_last s')
  end.

Definition digit_val (c : ascii) : Z := Z.of_N (code c) - 48.

(** The value of a run of decimal digits, most significant first. *)
Definition digits_val (ds : list ascii) : Z :=
  fold_left (fun acc c => 10 * acc + digit_val c) ds 0.

(** The digits of [int]'s literal syntax: [digit (["_"] digit)*].
    [after_digit] tells whether the previous character was a digit, so
    that an underscore is legal here. Returns the digits, underscores
    dropped. *)
Fixpoint int_digits (after_digit : bool) (l : list ascii) : option (list ascii) :=
  match l with
  | [] => if after_digit then Some [] else None
  | c :: l' =>
      if is_digit c then option_map (cons c) (int_digits true l')
      else if (Ascii.eqb c "_" && after_digit)%bool then int_digits false l'
      else None
  end.

(** [sys.int_max_str_digits], CPython's default. *)
Definition int_max_str_digits : nat := 4300.

(** The whitespace [int] skips around a literal: TAB..CR and SPACE, and
    the Latin-1 spaces NEL and NBSP, which it first turns into SPACE.
    Unlike [str.strip] it does not skip FS..US. *)
Definition is_int_space (c : ascii) : bool :=
  (in_range 9 13 c || N.eqb (code c) 32
   || N.eqb (code c) 133 || N.eqb (code c) 160)%bool.

Fixpoint int_lstrip (s : string) : string :=
  match s with
  | EmptyString => EmptyString
  | String c s' => if is_int_space c then int_lstrip s' else s
  end.

Fixpoint int_rstrip (s : string) : string :=
  match s with
  | EmptyString => EmptyString
  | String c s' =>
      match int_rstrip s' with
      | EmptyString =>
          if is_int_space c then EmptyString else String c EmptyString
      | r => String c r
      end
  end.

Definition int_strip (s : string) : string := int_rstrip (int_lstrip s).

(** [int(s)] in base 10: surrounding whitespace (of [int]'s own kind) is
    skipped, one sign is allowed, digits may be separated by single
    underscores. [None] is [ValueError]. *)
Definition int (s : string) : option Z :=
  let body := list_ascii_of_string (int_strip s) in
  let '(negative, rest) :=
    match body with
    | c :: rest =>
        if Ascii.eqb c "-" then (true, rest)
        else if Ascii.eqb c "+" then (false, rest)
        else (false, body)
    | [] => (false, body)
    end in
  match int_digits false rest with
  | Some ds =>
      if Nat.leb (List.length ds) int_max_str_digits
      then Some (if negative then - digits_val ds else digits_val ds)
      else None
  | None => None
  end.

(** [str(n)] for an [int]. *)
Definition of_int (n : Z) : string := NilZero.string_of_int (Z.to_int n).

End PyStr.

(* ================================================================== *)
(** * Insertion-ordered dictionaries *)

Module Dict.
Section Dict.
Context {K V : Type}.
Variable eqb : K -> K -> bool.

Definition t : Type := list (K * V).

Fixpoint get (k : K) (d : t) : option V :=
  match d with
  | [] => None
  | (k', v) :: d' => if eqb k k' then Some v else get k d'
  end.

(** [d[k] = v] *)
Fixpoint set (k : K) (v : V) (d : t) : t :=
  match d with
  | [] => [(k, v)]
  | (k', v') :: d' =>
      if eqb k k' then (k', v) :: d' else (k', v') :: set k v d'
  end.

Definition keys (d : t) : list K := map fst d.

(** [list(d.values())] *)
Definition values (d : t) : list V := map snd d.

End Dict.
End Dict.

(* ================================================================== *)
(** * datetime: the parts of the library the program relies on *)

Module DateTime.

(** A naive [datetime]. *)
Record t : Type := mk {
  year : Z; month : Z; day : Z;
  hour : Z; minute : Z; second : Z; microsecond : Z
}.

Definition fields (d : t) : list Z :=
  [year d; month d; day d; hour d; minute d; second d; microsecond d].

Fixpoint lex_leb (a b : list Z) : bool :=
  match a, b with
  | [], _ => true
  | _ :: _, [] => false
  | x :: a', y :: b' =>
      if x <? y then true else if y <? x then false else lex_leb a' b'
  end.

(** [a <= b] on naive datetimes: field by field, as tuples. *)
Definition leb (a b : t) : bool := lex_leb (fields a) (fields b).

Definition is_leap (y : Z) : bool :=
  ((y mod 4 =? 0) && (negb (y mod 100 =? 0) || (y mod 400 =? 0)))%bool.

Definition days_in_month (y m : Z) : Z :=
  if m =? 2 then (if is_leap y then 29 else 28)
  else if ((m =? 4) || (m =? 6) || (m =? 9) || (m =? 11))%bool then 30
  else 31.

(** The range checks of the [datetime] constructor. *)
Definition valid (d : t) : bool :=
  ((1 <=? year d) && (year d <=? 9999)
   && (1 <=? month d) && (month d <=? 12)
   && (1 <=? day d) && (day d <=? days_in_month (year d) (month d))
   && (0 <=? hour d) && (hour d <=? 23)
   && (0 <=? minute d) && (minute d <=? 59)
   && (0 <=? second d) && (second d <=? 59))%bool.

(** ** The regular expression of ["%Y-%m-%dT%H:%M:%S"]

    [_strptime] turns the format into a regular expression, matched with
    [re.IGNORECASE] from the start of the text; alternatives are tried in
    order, with backtracking. A matcher returns every way to match, in
    that order, each with the text it leaves. *)
Definition rx (A : Type) : Type := list ascii -> list (A * list ascii).

Definition ret {A : Type} (a : A) : rx A := fun l => [(a, l)].

Definition andthen {A B : Type} (p : rx A) (k : A -> rx B) : rx B :=
  fun l => flat_map (fun '(a, rest) => k a rest) (p l).

Definition alt {A : Type} (p q : rx A) : rx A := fun l => (p l ++ q l)%list.

Definition class (ok : ascii -> bool) : rx (list ascii) :=
  fun l =>
    match l with
    | c :: rest => if ok c then [([c], rest)] else []
    | [] => []
    end.

Definition cat (p q : rx (list ascii)) : rx (list ascii) :=
  andthen p (fun a => andthen q (fun b => ret (a ++ b)%list)).

(** The digits [lo]..[hi]. *)
Definition dig (lo hi : N) : rx (list ascii) :=
  class (PyStr.in_range (48 + lo) (48 + hi)).

(** A literal character of the format, case ignored. *)
Definition lit (c : ascii) : rx (list ascii) :=
  class (fun x => Ascii.eqb (PyStr.lower_char x) (PyStr.lower_char c)).

(** [int] of a matched group (the day may carry a leading space). *)
Definition group (p : rx (list ascii)) : rx Z :=
  andthen p (fun txt => ret (PyStr.digits_val (filter PyStr.is_digit txt))).

(** [\d\d\d\d] *)
Definition re_Y := cat (dig 0 9) (cat (dig 0 9) (cat (dig 0 9) (dig 0 9))).
(** [1[0-2]|0[1-9]|[1-9]] *)
Definition re_m :=
  alt (cat (dig 1 1) (dig 0 2)) (alt (cat (dig 0 0) (dig 1 9)) (dig 1 9)).
(** [3[0-1]|[1-2]\d|0[1-9]|[1-9]| [1-9]] *)
Definition re_d :=
  alt (cat (dig 3 3) (dig 0 1))
    (alt (cat (dig 1 2) (dig 0 9))
       (alt (cat (dig 0 0) (dig 1 9))
          (alt (dig 1 9) (cat (lit " ") (dig 1 9))))).
(** [2[0-3]|[0-1]\d|\d] *)
Definition re_H :=
  alt (cat (dig 2 2) (dig 0 3)) (alt (cat (dig 0 1) (dig 0 9)) (dig 0 9)).
(** [[0-5]\d|\d] *)
Definition re_M := alt (cat (dig 0 5) (dig 0 9)) (dig 0 9).
(** [6[0-1]|[0-5]\d|\d] *)
Definition re_S :=
  alt (cat (dig 6 6) (dig 0 1)) (alt (cat (dig 0 5) (dig 0 9)) (dig 0 9)).

Definition format_regex : rx t :=
  andthen (group re_Y) (fun Y =>
  andthen (lit "-") (fun _ =>
  andthen (group re_m) (fun m =>
  andthen (lit "-") (fun _ =>
  andthen (group re_d) (fun d =>
  andthen (lit "T") (fun _ =>
  andthen (group re_H) (fun H =>
  andthen (lit ":") (fun _ =>
  andthen (group re_M) (fun M =>
  andthen (lit ":") (fun _ =>
  andthen (group re_S) (fun S =>
  ret (mk Y m d H M S 0)))))))))))).

(** [datetime.strptime(s, "%Y-%m-%dT%H:%M:%S")]; [None] is [ValueError]:
    no match, text left over after the first match, or a field out of
    the constructor's range. *)
Definition strptime (s : string) : option t :=
  match format_regex (list_ascii_of_string s) with
  | (d, []) :: _ => if valid d then Some d else None
  | _ => None
  end.

End DateTime.

(** [timedelta], for whole numbers of seconds. *)
Module TimeDelta.

Record t : Type := mk { days : Z; seconds : Z }.

Definition max_days : Z := 999999999.

(** [timedelta(days=d, hours=h, minutes=m)] on integers: normalised to
    [0 <= seconds < 86400]; [OverflowError] when the days leave
    [-999999999 .. 999999999]. *)
Definition make (d h m : Z) : result t :=
  let total := d * 86400 + h * 3600 + m * 60 in
  let dd := total / 86400 in
  if (Z.abs dd <=? max_days) then Ok (mk dd (total mod 86400))
  else Raise OverflowError.

Definition total_seconds (x : t) : Z := days x * 86400 + seconds x.

End TimeDelta.

(* ================================================================== *)
(** * class TimeHelper *)

Module TimeHelper.

Definition is_unit (c : ascii) : bool :=
  (Ascii.eqb c "h" || Ascii.eqb c "m" || Ascii.eqb c "d")%bool.

(** The first [try] block of [parse_time_input], entered when the last
    character is a unit: [None] when [int] raises [ValueError] (the
    handler is [pass]), otherwise what the block returns or raises. *)
Definition with_unit (time_input : string) (unit : ascii)
  : option (result TimeDelta.t) :=
  match PyStr.int (PyStr.but_last time_input) with
  | Some number =>
      if Ascii.eqb unit "h" then Some (TimeDelta.make 0 number 0)
      else if Ascii.eqb unit "m" then Some (TimeDelta.make 0 0 number)
      else if Ascii.eqb unit "d" then Some (TimeDelta.make number 0 0)
      else None
  | None => None
  end.

(** The last [try] block: a bare integer is a number of days. *)
Definition as_days (time_input : string) : result TimeDelta.t :=
  match PyStr.int time_input with
  | Some number => TimeDelta.make number 0 0
  | None => TimeDelta.make 1 0 0
  end.

Definition parse_time_input (time_input : string) : result TimeDelta.t :=
  let time_input := PyStr.lower (PyStr.strip time_input) in
  if negb (PyStr.truthy time_input) then TimeDelta.make 1 0 0
  else
    match PyStr.last_char time_input with
    | None => Raise IndexError
    | Some unit =>
        let first_try :=
          if is_unit unit then with_unit time_input unit else None in
        match first_try with
        | Some r => r
        | None => as_days time_input
        end
    end.

Section Conversion.
(** [pytz.utc.localize(dt).astimezone(pytz.timezone('America/Los_Angeles'))
    .strftime(fmt)]: the zone database and the formatter are the
    libraries'; [None] when they raise. *)
Variable la_strftime : string -> DateTime.t -> option string.

(** The body of the [try] block shared by both conversions. *)
Definition convert (fmt utc_time_str : string) : option string :=
  match DateTime.strptime (PyStr.take 19 utc_time_str) with
  | Some utc_dt => la_strftime fmt utc_dt
  | None => None
  end.

Definition to_pst (utc_time_str : string) : string :=
  if (negb (PyStr.truthy utc_time_str) || String.eqb utc_time_str "Unknown")%bool
  then "Unknown"
  else
    match convert "%Y-%m-%d %H:%M PST" utc_time_str with
    | Some pst => pst
    | None => utc_time_str
    end.

Definition to_pst_time_only (utc_time_str : string) : string :=
  if (negb (PyStr.truthy utc_time_str) || String.eqb utc_time_str "Unknown")%bool
  then "Unknown"
  else
    match convert "%H:%M" utc_time_str with
    | Some pst => pst
    | None =>
        if Nat.ltb 5 (String.length utc_time_str)
        then PyStr.take 5 utc_time_str
        else utc_time_str
    end.
End Conversion.

End TimeHelper.

(** A loop whose body can raise: the first exception ends it. *)
Fixpoint foldM {A B : Type} (f : A -> B -> result A) (l : list B) (acc : A)
  : result A :=
  match l with
  | [] => Ok acc
  | x :: l' => acc' <- f acc x ;; foldM f l' acc'
  end.

(* ================================================================== *)
(** * class ZoomAPI *)

Module ZoomAPI.

(** A meeting identifier as the provider's JSON gives it: the [uuid] is a
    string, the [id] a number (or a string). *)
Inductive Ident : Type :=
| IdStr (s : string)
| IdInt (n : Z).

(** Python's [==] on identifiers, which is also the equality of
    dictionary keys: a string never equals a number. *)
Definition ident_eqb (a b : Ident) : bool :=
  match a, b with
  | IdStr s, IdStr s' => String.eqb s s'
  | IdInt n, IdInt n' => Z.eqb n n'
  | _, _ => false
  end.

(** [str(v)], where [None] is Python's [None]. *)
Definition py_str (v : option Ident) : string :=
  match v with
  | Some (IdStr s) => s
  | Some (IdInt n) => PyStr.of_int n
  | None => "None"
  end.

(** [if v:] *)
Definition truthy (v : option Ident) : bool :=
  match v with
  | Some (IdStr s) => PyStr.truthy s
  | Some (IdInt n) => negb (n =? 0)
  | None => false
  end.

(** One entry of a ["meetings"] array. *)
Record Meeting : Type := mkMeeting {
  topic : option string;
  start_time : option string;
  uuid : option Ident;
  id : option Ident
}.

(** [m.get("uuid", m.get("id"))] *)
Definition occurrence_id (m : Meeting) : option Ident :=
  match uuid m with
  | Some u => Some u
  | None => id m
  end.

(** The test both loops apply to a meeting: its start time is present,
    parses, and is not before the cutoff. *)
Definition started_since (cutoff_time : DateTime.t) (meeting : Meeting) : bool :=
  let start_time := get_or (start_time meeting) "" in
  if negb (PyStr.truthy start_time) then false
  else
    match DateTime.strptime (PyStr.take 19 start_time) with
    | Some meeting_dt => DateTime.leb cutoff_time meeting_dt
    | None => false
    end.

(** [get_meetings]: [all_meetings] is the ["meetings"] array of the
    response (empty when the request fails), [cutoff_time] is
    [datetime.now() - time_delta]. *)
Definition get_meetings (all_meetings : list Meeting) (cutoff_time : DateTime.t)
  : list Meeting :=
  fold_left
    (fun filtered_meetings meeting =>
       if started_since cutoff_time meeting
       then (filtered_meetings ++ [meeting])%list
       else filtered_meetings)
    all_meetings [].

(** The deduplication loop of [get_meeting_instances]. *)
Definition unique_step (cutoff_time : DateTime.t)
    (unique_instances : Dict.t (K:=Ident) (V:=Meeting)) (instance : Meeting) :=
  if started_since cutoff_time instance then
    match occurrence_id instance with
    | Some uuid =>
        if truthy (Some uuid)
        then Dict.set ident_eqb uuid instance unique_instances
        else unique_instances
    | None => unique_instances
    end
  else unique_instances.

(** [get_meeting_instances]: [past_instances] is the ["meetings"] array of
    the instances request (empty when it fails); [cutoff_user] is the
    cutoff [get_meetings] computes, [cutoff_time] the one computed after
    it has returned. *)
Definition get_meeting_instances (meeting_id : string)
    (past_instances all_meetings : list Meeting)
    (cutoff_user cutoff_time : DateTime.t) : list Meeting :=
  let instances := past_instances in
  let user_meetings := get_meetings all_meetings cutoff_user in
  let instances :=
    fold_left
      (fun instances meeting =>
         if String.eqb (py_str (id meeting)) meeting_id
         then (instances ++ [meeting])%list
         else instances)
      user_meetings instances in
  let unique_instances := fold_left (unique_step cutoff_time) instances [] in
  Dict.values unique_instances.

End ZoomAPI.

(* ================================================================== *)
(** * class AttendanceReporter *)

Module AttendanceReporter.
Import ZoomAPI.

(** One entry of a ["participants"] array, with the keys the reporter
    reads. A record combined from several sessions carries all six. *)
Record Participant : Type := mkParticipant {
  name : option string;
  user_email : option string;
  join_time : option string;
  leave_time : option string;
  duration : option Z;
  status : option string
}.

Record ReportRow : Type := mkRow {
  meeting_date : string;
  meeting_time : string;
  participant_name : string
}.

(** ** [_combine_sessions] *)

Definition join_key (x : Participant) : string := get_or (join_time x) "".

Fixpoint insert_by_join (x : Participant) (l : list Participant)
  : list Participant :=
  match l with
  | [] => [x]
  | y :: l' =>
      if String.leb (join_key x) (join_key y) then x :: y :: l'
      else y :: insert_by_join x l'
  end.

(** [sessions.sort(key=lambda x: x.get("join_time", ""))]: the sort is
    stable, so its result is the one of a stable insertion sort. *)
Definition sort_by_join (sessions : list Participant) : list Participant :=
  fold_right insert_by_join [] sessions.

(** The filter of the [best_email] generator. *)
Definition usable_email (s : Participant) : bool :=
  let e := get_or (user_email s) "" in
  (PyStr.truthy (PyStr.strip e) && negb (String.eqb (PyStr.lower e) "n/a"))%bool.

(** [next((... for s in sessions if ...), "N/A")] *)
Definition best_email_of (sessions : list Participant) : string :=
  match find usable_email sessions with
  | Some s => get_or (user_email s) ""
  | None => "N/A"
  end.

(** [sum(session.get("duration", 0) for session in sessions)] *)
Definition total_duration_of (sessions : list Participant) : Z :=
  fold_left (fun acc session => acc + get_or (duration session) 0) sessions 0.

(** [sessions] is sorted in place first, so every later read sees the
    sorted list. [sessions[0]] raises [IndexError] on an empty list. *)
Definition _combine_sessions (sessions : list Participant) : result Participant :=
  let sessions := sort_by_join sessions in
  let total_duration := total_duration_of sessions in
  let best_email := best_email_of sessions in
  match sessions with
  | [] => Raise IndexError
  | first :: _ =>
      let last := List.last sessions first in
      Ok {| name := Some (get_or (name first) "Unknown");
            user_email := Some best_email;
            join_time := Some (get_or (join_time first) "");
            leave_time := Some (get_or (leave_time last) "");
            duration := Some total_duration;
            status := Some (get_or (status first) "Unknown") |}
  end.

(** ** [_deduplicate_participants] *)

Definition identity_key (participant : Participant) : string :=
  let email := PyStr.lower (PyStr.strip (get_or (user_email participant) "")) in
  let name := PyStr.strip (get_or (name participant) "") in
  if (PyStr.truthy email && negb (String.eqb email "n/a"))%bool
  then email
  else PyStr.lower name.

Definition Groups : Type := Dict.t (K:=string) (V:=list Participant).

(** The body of the grouping loop. *)
Definition group_step (participant_groups : Groups) (participant : Participant)
  : Groups :=
  let key := identity_key participant in
  let participant_groups :=
    match Dict.get String.eqb key participant_groups with
    | None => Dict.set String.eqb key [] participant_groups
    | Some _ => participant_groups
    end in
  let sessions := get_or (Dict.get String.eqb key participant_groups) [] in
  Dict.set String.eqb key (sessions ++ [participant])%list participant_groups.

Definition participant_groups_of (participants : list Participant) : Groups :=
  fold_left group_step participants [].

(** The record the merging loop appends for one group: a lone session
    as it is, several sessions combined. *)
Definition merged_record (sessions : list Participant) : result Participant :=
  if Nat.eqb (List.length sessions) 1 then
    match sessions with
    | s :: _ => Ok s
    | [] => Raise IndexError
    end
  else _combine_sessions sessions.

(** The body of the merging loop. *)
Definition merge_step (deduplicated : list Participant)
    (sessions : list Participant) : result (list Participant) :=
  merged <- merged_record sessions ;;
  Ok (deduplicated ++ [merged])%list.

Definition _deduplicate_participants (participants : list Participant)
  : result (list Participant) :=
  let participant_groups := participant_groups_of participants in
  foldM merge_step (Dict.values participant_groups) [].

(** ** [generate_report] *)

Section Report.
Variable la_strftime : string -> DateTime.t -> option string.
(** The ["participants"] array answered for a meeting identifier
    (empty when the request fails). *)
Variable get_participants : string -> list Participant.

Definition row_for (start_time participant_name : string) : ReportRow :=
  {| meeting_date :=
       if PyStr.truthy start_time
       then PyStr.take 10 (TimeHelper.to_pst la_strftime start_time)
       else "Unknown";
     meeting_time := TimeHelper.to_pst_time_only la_strftime start_time;
     participant_name := participant_name |}.

Definition Acc : Type := (list ReportRow * list string)%type.

(** The inner loop over the deduplicated participants. *)
Definition participant_step (start_time : string) (acc : Acc)
    (participant : Participant) : Acc :=
  let '(attendance_data, all_participants) := acc in
  let participant_name := get_or (name participant) "Unknown" in
  ((attendance_data ++ [row_for start_time participant_name])%list,
   (all_participants ++ [participant_name])%list).

(** The body of the loop over the meetings. *)
Definition meeting_step (acc : Acc) (meeting : Meeting) : result Acc :=
  let '(attendance_data, all_participants) := acc in
  let start_time := get_or (ZoomAPI.start_time meeting) "" in
  let meeting_uuid := occurrence_id meeting in
  let participants := get_participants (py_str meeting_uuid) in
  match participants with
  | [] =>
      Ok ((attendance_data ++ [row_for start_time "No attendees"])%list,
          (all_participants ++ ["No attendees"])%list)
  | _ :: _ =>
      deduplicated <- _deduplicate_participants participants ;;
      Ok (fold_left (participant_step start_time) deduplicated
            (attendance_data, all_participants))
  end.

(** [generate_report] once the meetings are known. *)
Definition report_of (meetings : list Meeting) : result Acc :=
  match meetings with
  | [] => Ok ([], [])
  | _ :: _ => foldM meeting_step meetings ([], [])
  end.

(** The provider's answers and the clock readings of one run. *)
Variable past_instances : string -> list Meeting.
Variable all_meetings : list Meeting.
Variables cutoff_user cutoff_time : DateTime.t.

Definition generate_report (meeting_id : option string) : result Acc :=
  let meetings :=
    match meeting_id with
    | Some (String c s) =>
        get_meeting_instances (String c s) (past_instances (String c s))
          all_meetings cutoff_user cutoff_time
    | _ => get_meetings all_meetings cutoff_user
    end in
  report_of meetings.
End Report.

End AttendanceReporter.

(* ================================================================== *)
(** * Reference definitions used by the statements *)

(** Python's [<=] on strings. *)
Definition str_le (a b : string) : Prop := String.leb a b = true.

(** Python's [<] on strings. *)
Definition str_lt (a b : string) : Prop := String.leb b a = false.

(** The order of the sort key of [_combine_sessions]. *)
Definition join_le (a b : AttendanceReporter.Participant) : Prop :=
  str_le (AttendanceReporter.join_key a) (AttendanceReporter.join_key b).

Definition join_lt (a b : AttendanceReporter.Participant) : Prop :=
  str_lt (AttendanceReporter.join_key a) (AttendanceReporter.join_key b).

Module Spec.
Import ZoomAPI AttendanceReporter.

Definition leave_key (x : Participant) : string := get_or (leave_time x) "".

(** The sum of the durations of a group, an absent one counting 0. *)
Definition sum_of_durations (g : list Participant) : Z :=
  fold_right (fun s acc => get_or (duration s) 0 + acc) 0 g.

(** The sessions of [ps] whose identity key is [k], in encounter order. *)
Definition sessions_of_key (k : string) (ps : list Participant)
  : list Participant :=
  filter (fun p => String.eqb (identity_key p) k) ps.

(** An instance enters the dictionary of [get_meeting_instances] under
    [k]: it starts within the window and [k] is its (truthy) identifier. *)
Definition enters_as (cutoff : DateTime.t) (k : Ident) (m : Meeting) : bool :=
  (started_since cutoff m
   && match occurrence_id m with
      | Some u => ident_eqb u k && truthy (Some u)
      | None => false
      end)%bool.

(** The last instance of [l] that enters under [k]. *)
Definition last_entering (cutoff : DateTime.t) (k : Ident) (l : list Meeting)
  : option Meeting :=
  find (enters_as cutoff k) (rev l).

(** The entries of the user listing that [get_meeting_instances] appends:
    the second source. *)
Definition matching_user_meetings (meeting_id : string)
    (all_meetings : list Meeting) (cutoff_user : DateTime.t) : list Meeting :=
  filter (fun m => String.eqb (py_str (id m)) meeting_id)
    (filter (started_since cutoff_user) all_meetings).

(** The name a report row shows for a record. *)
Definition shown_name (p : Participant) : string := get_or (name p) "Unknown".

(** Seconds in one unit of [parse_time_input]. *)
Definition unit_seconds (u : ascii) : Z :=
  if Ascii.eqb u "h" then 3600 else if Ascii.eqb u "m" then 60 else 86400.

(** The durations [timedelta] can hold. *)
Definition representable (secs : Z) : Prop :=
  Z.abs (secs / 86400) <= TimeDelta.max_days.

(** A stand-in for the zone database, for inputs that never reach it. *)
Definition fixed_text : string -> DateTime.t -> option string :=
  fun _ _ => Some "<local time>".
End Spec.

(** Sample data: the scenarios of the specification and the inputs at
    which the code is evaluated below. *)
Module Samples.
Import ZoomAPI AttendanceReporter.

Definition session (n e j l : string) (d : Z) : Participant :=
  {| name := Some n; user_email := Some e; join_time := Some j;
     leave_time := Some l; duration := Some d; status := Some "in_meeting" |}.

(** Two sessions of one participant, one after the other. *)
Definition alice_1 : Participant :=
  session "Alice" "alice@co.com" "t1" "t2" 300.
Definition alice_2 : Participant :=
  session "Alice L." "alice@co.com" "t3" "t4" 600.
Definition alice_sessions : list Participant := [alice_1; alice_2].

(** A long session and a short one inside it (a second device). *)
Definition laptop : Participant :=
  session "Bo" "bo@co.com" "2024-01-15T18:00:00Z" "2024-01-15T19:00:00Z" 3600.
Definition phone : Participant :=
  session "Bo" "bo@co.com" "2024-01-15T18:05:00Z" "2024-01-15T18:10:00Z" 300.
Definition overlapping_sessions : list Participant := [laptop; phone].

(** The session listed first joined later, and has another address. *)
Definition listed_first : Participant :=
  session "Cy" "b@y.com" "2024-01-15T18:30:00Z" "2024-01-15T19:00:00Z" 1800.
Definition listed_second : Participant :=
  session "Cy" "a@x.com" "2024-01-15T18:00:00Z" "2024-01-15T18:20:00Z" 1200.
Definition out_of_order_sessions : list Participant :=
  [listed_first; listed_second].

(** A session whose name is present and empty. *)
Definition unnamed : Participant :=
  session "" "guest@co.com" "t1" "t2" 60.

(** One occurrence as each of the two requests reports it. *)
Definition from_instances : Meeting :=
  {| topic := Some "Standup (instances)";
     start_time := Some "2024-01-15T18:00:00Z";
     uuid := Some (IdStr "789"); id := Some (IdInt 123) |}.
Definition from_listing : Meeting :=
  {| topic := Some "Standup (listing)";
     start_time := Some "2024-01-15T18:00:00Z";
     uuid := Some (IdStr "789"); id := Some (IdInt 123) |}.

(** A meeting without a start time. *)
Definition undated : Meeting :=
  {| topic := Some "Sync"; start_time := None;
     uuid := Some (IdStr "abc"); id := Some (IdInt 7) |}.

Definition midnight : DateTime.t := DateTime.mk 2024 1 15 0 0 0 0.

Definition nobody : string -> list Participant := fun _ => [].
End Samples.

(* ================================================================== *)
(** * class EmailSender: the participant list of the message body *)

Module EmailSender.

Fixpoint insert_name (x : string) (l : list string) : list string :=
  match l with
  | [] => [x]
  | y :: l' =>
      if String.leb x y then x :: y :: l' else y :: insert_name x l'
  end.

(** [unique_participants.sort()] *)
Definition sorted_names (l : list string) : list string :=
  fold_right insert_name [] l.

Definition newline : string := String (ascii_of_nat 10) EmptyString.

(** The list of the body, from [unique_participants] as
    [list(set(participants))] enumerates it. *)
Definition participant_list_from (unique_participants : list string) : string :=
  let unique_participants := sorted_names unique_participants in
  match unique_participants with
  | [] => "No participants found"
  | _ :: _ => String.concat newline unique_participants
  end.

(** One enumeration of [set(participants)]: each name where it is first
    met. The language fixes no order; [participant_list_from] sorts. *)
Definition set_of (participants : list string) : list string :=
  fold_left
    (fun seen x => if existsb (String.eqb x) seen then seen else (seen ++ [x])%list)
    participants [].

Definition participant_list (participants : list string) : string :=
  participant_list_from (set_of participants).

End EmailSender.

(* ================================================================== *)
(** * [get_config] and the fallback reader of [.env] *)

Module Config.

Definition dquote : ascii := ascii_of_nat 34.
Definition squote : ascii := ascii_of_nat 39.

Fixpoint lstrip_char (q : ascii) (s : string) : string :=
  match s with
  | EmptyString => EmptyString
  | String c s' => if Ascii.eqb c q then lstrip_char q s' else s
  end.

Fixpoint rstrip_char (q : ascii) (s : string) : string :=
  match s with
  | EmptyString => EmptyString
  | String c s' =>
      match rstrip_char q s' with
      | EmptyString => if Ascii.eqb c q then EmptyString else String c EmptyString
      | r => String c r
      end
  end.

(** [s.strip(q)] for a one-character [q]. *)
Definition strip_char (q : ascii) (s : string) : string :=
  rstrip_char q (lstrip_char q s).

(** [s.split(sep)] for a one-character separator. *)
Fixpoint split_on (sep : ascii) (s : string) : list string :=
  match s with
  | EmptyString => [EmptyString]
  | String c s' =>
      if Ascii.eqb c sep then EmptyString :: split_on sep s'
      else
        match split_on sep s' with
        | part :: parts => String c part :: parts
        | [] => [String c EmptyString]
        end
  end.

(** [s.split(sep, 1)] when [sep] occurs in [s]: the text before its first
    occurrence and the text after it; [None] when [sep not in s]. *)
Fixpoint split_once (sep : ascii) (s : string) : option (string * string) :=
  match s with
  | EmptyString => None
  | String c s' =>
      if Ascii.eqb c sep then Some (EmptyString, s')
      else
        match split_once sep s' with
        | Some (before, after) => Some (String c before, after)
        | None => None
        end
  end.

(** The unquoting both readers apply: [strip()], then [strip] of the
    double quote, then [strip] of the single quote. *)
Definition unquote (value : string) : string :=
  strip_char squote (strip_char dquote (PyStr.strip value)).

(** [safe_int]: any exception gives the default. *)
Definition safe_int (value : string) (default : Z) : Z :=
  match PyStr.int (unquote value) with
  | Some n => n
  | None => default
  end.

(** [[x.strip() for x in value.split(',') if x.strip()]] *)
Definition recipients_of (value : string) : list string :=
  map PyStr.strip
    (filter (fun x => PyStr.truthy (PyStr.strip x)) (split_on "," value)).

Record t : Type := mk {
  zoom_account_id : option string;
  zoom_client_id : option string;
  zoom_client_secret : option string;
  sender_email : option string;
  sender_password : option string;
  smtp_server : string;
  smtp_port : Z;
  recipients : list string
}.

(** [get_config], with [os.getenv] as an argument. *)
Definition get_config (getenv : string -> option string) : t :=
  {| zoom_account_id := getenv "ZOOM_ACCOUNT_ID";
     zoom_client_id := getenv "ZOOM_CLIENT_ID";
     zoom_client_secret := getenv "ZOOM_CLIENT_SECRET";
     sender_email := getenv "SENDER_EMAIL";
     sender_password := getenv "SENDER_PASSWORD";
     smtp_server := get_or (getenv "SMTP_SERVER") "smtp.gmail.com";
     smtp_port := safe_int (get_or (getenv "SMTP_PORT") "587") 587;
     recipients := recipients_of (get_or (getenv "EMAIL_RECIPIENTS") "") |}.

(** One line of [.env] in the fallback reader: the key and the value it
    assigns in [os.environ], [None] when the line is skipped. (The
    assignment itself is the system's.) *)
Definition env_assignment (line : string) : option (string * string) :=
  let line := PyStr.strip line in
  if (PyStr.truthy line && negb (String.prefix "#" line))%bool then
    match split_once "=" line with
    | Some (key, value) => Some (PyStr.strip key, unquote value)
    | None => None
    end
  else None.

End Config.

(* ================================================================== *)
(** * [ZoomAPI.authenticate] and [ZoomAPI.get_headers] *)

Module Auth.

(** The answer of the token endpoint: status 200 with its
    ["access_token"], or another status with the text of the response. *)
Inductive TokenResponse : Type :=
| Granted (access_token : string)
| Refused (text : string).

(** What a call leaves behind: the value of [self.access_token] and the
    number of requests sent to the token endpoint. *)
Record State : Type := mkState {
  access_token : option string;
  token_requests : nat
}.

(** [authenticate]: [inr] is the raised [Exception] with its message. *)
Definition authenticate (response : TokenResponse) (st : State)
  : (State + string) :=
  let st := mkState (access_token st) (S (token_requests st)) in
  match response with
  | Granted token => inl (mkState (Some token) (token_requests st))
  | Refused text => inr ("Authentication failed: " ++ text)%string
  end.

Definition headers_for (token : option string) : list (string * string) :=
  [("Authorization", ("Bearer " ++ get_or token "None")%string);
   ("Content-Type", "application/json")].

(** [get_headers]: authenticates first when no token is held (absent or
    empty). *)
Definition get_headers (response : TokenResponse) (st : State)
  : (list (string * string) * State) + string :=
  if negb (PyStr.truthy (get_or (access_token st) "")) then
    match authenticate response st with
    | inl st' => inl (headers_for (access_token st'), st')
    | inr e => inr e
    end
  else inl (headers_for (access_token st), st).

(** A run of calls of [get_headers], each with the answer the token
    endpoint would give at that moment: the headers returned by the calls
    and the final state, until a call raises. *)
Fixpoint get_headers_run (responses : list TokenResponse) (st : State)
  : (list (list (string * string)) * State) + string :=
  match responses with
  | [] => inl ([], st)
  | response :: later =>
      match get_headers response st with
      | inl (h, st') =>
          match get_headers_run later st' with
          | inl (hs, st'') => inl (h :: hs, st'')
          | inr e => inr e
          end
      | inr e => inr e
      end
  end.

End Auth.

(* ================================================================== *)
(** * Further reference definitions *)

Module More.
Import ZoomAPI AttendanceReporter.

(** The distinct elements of a list, each where it is first met. *)
Definition distinct_in_order (l : list string) : list string :=
  EmailSender.set_of l.

(** [u] enumerates the set of the elements of [xs]. *)
Definition enumerates (xs u : list string) : Prop :=
  NoDup u /\ forall x, In x u <-> In x xs.

(** The durations of a list of records, read with the default 0. *)
Definition durations (l : list Participant) : Z := Spec.sum_of_durations l.

Definition chars (s : string) : list ascii := list_ascii_of_string s.

(** A recipient as [recipients_of] returns them: not empty, no
    surrounding whitespace, no comma. *)
Definition clean_address (x : string) : Prop :=
  x <> "" /\ PyStr.strip x = x /\ ~ In ","%char (chars x).

(** A key as the reader of [.env] assigns them. *)
Definition clean_key (k : string) : Prop :=
  k <> "" /\ PyStr.strip k = k /\ ~ In "="%char (chars k) /\
  String.prefix "#" k = false.

(** A value without surrounding whitespace or quotes. *)
Definition plain_value (v : string) : Prop :=
  PyStr.strip v = v /\ Config.strip_char Config.dquote v = v /\
  Config.strip_char Config.squote v = v.

(** The first character, when there is one, is not whitespace. *)
Definition lead_ok (s : string) : Prop :=
  match s with
  | EmptyString => True
  | String c _ => PyStr.is_space c = false
  end.

Definition addresses : list string := ["manager@company.com"; "hr@company.com"].

(** Three participants with three identities. *)
Definition three_people : list Participant :=
  [Samples.alice_1; Samples.laptop; Samples.unnamed].

(** Alice twice and Bo between. *)
Definition mixed_sessions : list Participant :=
  [Samples.alice_1; Samples.laptop; Samples.alice_2].

Definition noon : DateTime.t := DateTime.mk 2024 1 15 12 0 0 0.
End More.

(** The request of the user listing takes a second: the cutoff computed
    before it and the one computed after it. *)
Module TwoReadings.
Import ZoomAPI.

Definition before_request : DateTime.t := DateTime.mk 2024 1 15 17 59 59 500000.
Definition after_request : DateTime.t := DateTime.mk 2024 1 15 18 0 0 500000.

(** The occurrence ["789"] as the instances request reports it, with a
    start time one second after the one of the user listing. *)
Definition started_later : Meeting :=
  {| topic := Some "Standup (instances)";
     start_time := Some "2024-01-15T18:00:01Z";
     uuid := Some (IdStr "789"); id := None |}.
End TwoReadings.

(** The control character US (U+001F), whitespace for [str.strip] and not
    for [int]. *)
Definition unit_separator : string := String (ascii_of_nat 31) EmptyString.

(* ================================================================== *)
(** * The order on strings *)

Section StringOrder.

Lemma ascii_compare_refl (c : ascii) : Ascii.compare c c = Eq.
Proof. unfold Ascii.compare. apply N.compare_refl. Qed.

Lemma string_compare_refl (s : string) : String.compare s s = Eq.
Proof.
  induction s as [|c s IH]; simpl; [reflexivity|].
  now rewrite ascii_compare_refl.
Qed.

Lemma string_compare_not_gt_trans (a b c : string) :
  String.compare a b <> Gt -> String.compare b c <> Gt ->
  String.compare a c <> Gt.
Proof.
  revert b c.
  induction a as [|x a IH]; intros [|y b] [|z c]; simpl; try congruence.
  unfold Ascii.compare.
  destruct (N.compare_spec (N_of_ascii x) (N_of_ascii y)) as [Exy|Lxy|Gxy];
    destruct (N.compare_spec (N_of_ascii y) (N_of_ascii z)) as [Eyz|Lyz|Gyz];
    destruct (N.compare_spec (N_of_ascii x) (N_of_ascii z)) as [Exz|Lxz|Gxz];
    try congruence; try lia.
  apply IH.
Qed.

Lemma str_le_refl (a : string) : str_le a a.
Proof. unfold str_le, String.leb. now rewrite string_compare_refl. Qed.

Lemma leb_not_gt (a b : string) :
  String.leb a b = true <-> String.compare a b <> Gt.
Proof.
  unfold String.leb. destruct (String.compare a b); split; congruence.
Qed.

Lemma str_le_trans (a b c : string) : str_le a b -> str_le b c -> str_le a c.
Proof.
  unfold str_le. rewrite !leb_not_gt. apply string_compare_not_gt_trans.
Qed.

Lemma str_lt_le (a b : string) : str_lt a b -> str_le a b.
Proof.
  unfold str_lt, str_le. intros H.
  destruct (String.leb_total a b) as [H1|H1]; congruence.
Qed.

Lemma str_le_lt_trans (a b c : string) : str_le a b -> str_lt b c -> str_lt a c.
Proof.
  unfold str_lt. intros Hab Hbc.
  destruct (String.leb c a) eqn:Hca; [|reflexivity].
  assert (Hcb : str_le c b) by (eapply str_le_trans; eassumption).
  unfold str_le in Hcb. congruence.
Qed.

Lemma str_lt_le_trans (a b c : string) : str_lt a b -> str_le b c -> str_lt a c.
Proof.
  unfold str_lt. intros Hab Hbc.
  destruct (String.leb c a) eqn:Hca; [|reflexivity].
  assert (Hba : str_le b a) by (eapply str_le_trans; eassumption).
  unfold str_le in Hba. congruence.
Qed.

Lemma empty_str_le (a : string) : str_le "" a.
Proof. unfold str_le, String.leb. now destruct a. Qed.

End StringOrder.

(* ================================================================== *)
(** * The stable sort by join time *)

Section SortByJoin.
Import AttendanceReporter.

Lemma insert_by_join_perm (x : Participant) (l : list Participant) :
  Permutation (insert_by_join x l) (x :: l).
Proof.
  induction l as [|y l IH]; simpl; [reflexivity|].
  destruct (String.leb (join_key x) (join_key y)); [reflexivity|].
  rewrite IH. apply perm_swap.
Qed.

Lemma sort_by_join_perm (l : list Participant) :
  Permutation (sort_by_join l) l.
Proof.
  induction l as [|x l IH]; simpl; [reflexivity|].
  rewrite insert_by_join_perm. now constructor.
Qed.

Lemma sort_by_join_in (l : list Participant) (x : Participant) :
  In x (sort_by_join l) <-> In x l.
Proof.
  split; apply Permutation_in;
    [apply sort_by_join_perm | symmetry; apply sort_by_join_perm].
Qed.

Lemma sort_by_join_length (l : list Participant) :
  List.length (sort_by_join l) = List.length l.
Proof. apply Permutation_length, sort_by_join_perm. Qed.

Lemma insert_by_join_sorted (x : Participant) (l : list Participant) :
  StronglySorted join_le l -> StronglySorted join_le (insert_by_join x l).
Proof.
  induction 1 as [|y l Hs IH Hy]; simpl.
  - repeat constructor.
  - destruct (String.leb (join_key x) (join_key y)) eqn:E.
    + constructor; [now constructor|].
      constructor; [exact E|].
      eapply Forall_impl; [|exact Hy].
      intros z Hz. eapply str_le_trans; [exact E | exact Hz].
    + constructor; [exact IH|].
      rewrite Forall_forall. intros z Hz.
      apply (Permutation_in _ (insert_by_join_perm x l)) in Hz.
      destruct Hz as [<-|Hz].
      * apply str_lt_le. exact E.
      * rewrite Forall_forall in Hy. now apply Hy.
Qed.

Lemma sort_by_join_sorted (l : list Participant) :
  StronglySorted join_le (sort_by_join l).
Proof.
  induction l as [|x l IH]; simpl; [constructor|].
  now apply insert_by_join_sorted.
Qed.

(** A list that is already in order is left as it is. *)
Lemma sort_by_join_sorted_id (l : list Participant) :
  StronglySorted join_le l -> sort_by_join l = l.
Proof.
  induction 1 as [|x l Hs IH Hx]; simpl; [reflexivity|].
  rewrite IH. destruct l as [|y l]; simpl; [reflexivity|].
  inversion Hx as [|? ? Hxy _]; subst.
  unfold join_le, str_le in Hxy. now rewrite Hxy.
Qed.

(** Where the head of the inserted list comes from. *)
Lemma hd_insert_by_join (x d : Participant) (l : list Participant) :
  hd d (insert_by_join x l) =
  match l with
  | [] => x
  | y :: _ => if String.leb (join_key x) (join_key y) then x else y
  end.
Proof.
  destruct l as [|y l]; simpl; [reflexivity|].
  now destruct (String.leb (join_key x) (join_key y)).
Qed.

(** Where the last element of the inserted list comes from. *)
Lemma last_insert_by_join (x d : Participant) (l : list Participant) :
  List.last (insert_by_join x l) d =
  if forallb (fun y => negb (String.leb (join_key x) (join_key y))) l
  then x else List.last l d.
Proof.
  induction l as [|y l IH]; [reflexivity|].
  cbn [insert_by_join forallb].
  destruct (String.leb (join_key x) (join_key y)) eqn:E; cbn [negb andb].
  - reflexivity.
  - assert (Hne : insert_by_join x l <> []).
    { destruct l as [|w l0]; simpl;
        [|destruct (String.leb (join_key x) (join_key w))];
        intros Hnil; discriminate Hnil. }
    change (List.last (y :: insert_by_join x l) d)
      with (match insert_by_join x l with
            | [] => y
            | _ :: _ => List.last (insert_by_join x l) d
            end).
    destruct (insert_by_join x l) as [|z l'] eqn:El; [congruence|].
    rewrite IH.
    destruct (forallb _ l) eqn:Ef; [reflexivity|].
    destruct l as [|w l]; [discriminate Ef|reflexivity].
Qed.

(** The first record after the sort: it has the least join time, and of
    the sessions with that join time it is the first encountered. *)
Lemma sort_by_join_first (g : list Participant) (d : Participant) :
  g <> [] ->
  exists l1 z l2,
    g = (l1 ++ z :: l2)%list /\ hd d (sort_by_join g) = z /\
    (forall y, In y l1 -> join_lt z y) /\
    (forall y, In y l2 -> join_le z y).
Proof.
  induction g as [|x g IH]; [congruence|]. intros _.
  destruct g as [|x' g'].
  - exists [], x, []. simpl.
    split; [reflexivity|]. split; [reflexivity|]. split; intros y [].
  - destruct IH as (l1 & z & l2 & Hg & Hhd & H1 & H2); [discriminate|].
    change (sort_by_join (x :: x' :: g'))
      with (insert_by_join x (sort_by_join (x' :: g'))).
    rewrite hd_insert_by_join.
    destruct (sort_by_join (x' :: g')) as [|y s] eqn:Es.
    { apply (f_equal (@List.length _)) in Es.
      rewrite sort_by_join_length in Es. discriminate Es. }
    simpl in Hhd. subst y.
    destruct (String.leb (join_key x) (join_key z)) eqn:E.
    + exists [], x, (x' :: g').
      split; [reflexivity|]. split; [reflexivity|]. split; [intros y []|].
      intros y Hy. rewrite Hg in Hy. apply in_app_or in Hy.
      destruct Hy as [Hy|[<-|Hy]].
      * eapply str_le_trans; [exact E|]. apply str_lt_le. now apply H1.
      * exact E.
      * eapply str_le_trans; [exact E|]. now apply H2.
    + exists (x :: l1), z, l2. rewrite Hg.
      split; [reflexivity|]. split; [reflexivity|]. split; [|exact H2].
      intros y [<-|Hy]; [exact E | now apply H1].
Qed.

(** The last record after the sort: it has the greatest join time, and of
    the sessions with that join time it is the last encountered. *)
Lemma sort_by_join_last (g : list Participant) (d : Participant) :
  g <> [] ->
  exists l1 z l2,
    g = (l1 ++ z :: l2)%list /\ List.last (sort_by_join g) d = z /\
    (forall y, In y l1 -> join_le y z) /\
    (forall y, In y l2 -> join_lt y z).
Proof.
  induction g as [|x g IH]; [congruence|]. intros _.
  destruct g as [|x' g'].
  - exists [], x, []. simpl.
    split; [reflexivity|]. split; [reflexivity|]. split; intros y [].
  - destruct IH as (l1 & z & l2 & Hg & Hlast & H1 & H2); [discriminate|].
    change (sort_by_join (x :: x' :: g'))
      with (insert_by_join x (sort_by_join (x' :: g'))).
    rewrite last_insert_by_join.
    destruct (forallb _ (sort_by_join (x' :: g'))) eqn:Ef.
    + rewrite forallb_forall in Ef.
      exists [], x, (x' :: g').
      split; [reflexivity|]. split; [reflexivity|]. split; [intros y []|].
      intros y Hy. apply sort_by_join_in in Hy. apply Ef in Hy.
      apply negb_true_iff in Hy. exact Hy.
    + exists (x :: l1), z, l2. rewrite Hlast.
      split; [now rewrite Hg|]. split; [reflexivity|]. split; [|exact H2].
      intros y [<-|Hy]; [|now apply H1].
      assert (Hex : exists w, In w (x' :: g') /\ join_le x w).
      { destruct (existsb (fun w => String.leb (join_key x) (join_key w))
                    (sort_by_join (x' :: g'))) eqn:Ex.
        - apply existsb_exists in Ex. destruct Ex as (w & Hw & Hle).
          exists w. split; [now apply sort_by_join_in|exact Hle].
        - exfalso. apply not_true_iff_false in Ef. apply Ef.
          apply forallb_forall. intros w Hw. apply negb_true_iff.
          destruct (String.leb (join_key x) (join_key w)) eqn:Exw;
            [|reflexivity].
          assert (Ht : existsb (fun w => String.leb (join_key x) (join_key w))
                    (sort_by_join (x' :: g')) = true)
            by (apply existsb_exists; eauto).
          congruence. }
      destruct Hex as (w & Hw & Hle). rewrite Hg in Hw.
      apply in_app_or in Hw. destruct Hw as [Hw|[<-|Hw]].
      * eapply str_le_trans; [exact Hle | now apply H1].
      * exact Hle.
      * eapply str_le_trans; [exact Hle|]. apply str_lt_le. now apply H2.
Qed.

End SortByJoin.

(* ================================================================== *)
(** * [_combine_sessions] and [merged_record] *)

Section Combine.
Import AttendanceReporter Spec.

Lemma last_default_irrelevant {A : Type} (l : list A) (d d' : A) :
  l <> [] -> List.last l d = List.last l d'.
Proof.
  induction l as [|x l IH]; [congruence|]. intros _.
  destruct l as [|y l]; [reflexivity|].
  change (List.last (y :: l) d = List.last (y :: l) d').
  apply IH. discriminate.
Qed.

Lemma sort_by_join_nonempty (g : list Participant) :
  g <> [] -> sort_by_join g <> [].
Proof.
  intros Hg Hs. apply Hg. apply length_zero_iff_nil.
  rewrite <- sort_by_join_length, Hs. reflexivity.
Qed.

(** What [_combine_sessions] returns on a group that is not empty. *)
Lemma _combine_sessions_eq (g : list Participant) (d : Participant) :
  g <> [] ->
  _combine_sessions g =
  Ok {| name := Some (get_or (name (hd d (sort_by_join g))) "Unknown");
        user_email := Some (best_email_of (sort_by_join g));
        join_time := Some (join_key (hd d (sort_by_join g)));
        leave_time := Some (leave_key (List.last (sort_by_join g) d));
        duration := Some (total_duration_of (sort_by_join g));
        status := Some (get_or (status (hd d (sort_by_join g))) "Unknown") |}.
Proof.
  intros Hg. apply sort_by_join_nonempty in Hg.
  unfold _combine_sessions.
  destruct (sort_by_join g) as [|f s] eqn:Es; [congruence|].
  rewrite (last_default_irrelevant (f :: s) f d) by discriminate.
  reflexivity.
Qed.

Lemma fold_left_durations (l : list Participant) (acc : Z) :
  fold_left (fun a session => a + get_or (duration session) 0) l acc =
  acc + sum_of_durations l.
Proof.
  revert acc. induction l as [|x l IH]; intros acc; simpl; [lia|].
  rewrite IH. lia.
Qed.

Lemma total_duration_of_sum (l : list Participant) :
  total_duration_of l = sum_of_durations l.
Proof. unfold total_duration_of. rewrite fold_left_durations. lia. Qed.

Lemma sum_of_durations_perm (l l' : list Participant) :
  Permutation l l' -> sum_of_durations l = sum_of_durations l'.
Proof.
  induction 1; simpl; lia.
Qed.

Lemma total_duration_of_sorted (g : list Participant) :
  total_duration_of (sort_by_join g) = sum_of_durations g.
Proof.
  rewrite total_duration_of_sum.
  apply sum_of_durations_perm, sort_by_join_perm.
Qed.

Lemma find_first {A : Type} (f : A -> bool) (l : list A) (x : A) :
  find f l = Some x ->
  exists before after,
    l = (before ++ x :: after)%list /\ f x = true /\
    forall y, In y before -> f y = false.
Proof.
  induction l as [|a l IH]; simpl; [discriminate|].
  destruct (f a) eqn:Ea.
  - intros [= <-]. exists [], l.
    split; [reflexivity|]. split; [exact Ea|]. intros y [].
  - intros H. destruct (IH H) as (b & c & -> & Hx & Hb).
    exists (a :: b), c.
    split; [reflexivity|]. split; [exact Hx|].
    intros y [<-|Hy]; [exact Ea | now apply Hb].
Qed.

(** What [merged_record] returns on a group that is not empty. *)
Lemma merged_record_eq (g : list Participant) :
  g <> [] ->
  merged_record g =
  match g with
  | [s] => Ok s
  | _ => _combine_sessions g
  end.
Proof.
  destruct g as [|s [|s' g]]; [congruence| |]; reflexivity.
Qed.

Lemma merged_record_ok (g : list Participant) :
  g <> [] -> exists r, merged_record g = Ok r.
Proof.
  intros Hg. rewrite merged_record_eq by exact Hg.
  destruct g as [|s [|s' g]]; [congruence|eauto|].
  rewrite (_combine_sessions_eq _ s) by discriminate. eauto.
Qed.

End Combine.

Section CombineClaims.
Import AttendanceReporter Spec.

Lemma two_sessions_nonempty (g : list Participant) :
  (2 <= List.length g)%nat -> g <> [].
Proof. destruct g; simpl; [lia|discriminate]. Qed.

(** C1, as the code has it: for a group of two or more sessions the
    combined record's join time is the least join time of the group
    (an absent one counting as the empty string); its leave time is the
    leave time of the session that ends up last in the sort by join time,
    that is the last encountered of the sessions with the greatest join
    time. That is the greatest leave time whenever leave times grow with
    join times. *)
Theorem combine_sessions_join_and_leave (g : list Participant) :
  (2 <= List.length g)%nat ->
  exists r first l3 last l4,
    _combine_sessions g = Ok r /\
    In first g /\
    join_time r = Some (join_key first) /\
    (forall s, In s g -> str_le (join_key first) (join_key s)) /\
    g = (l3 ++ last :: l4)%list /\
    leave_time r = Some (leave_key last) /\
    (forall s, In s g -> join_le s last) /\
    (forall s, In s l4 -> join_lt s last) /\
    ((forall a b, In a g -> In b g -> join_le a b ->
                  str_le (leave_key a) (leave_key b)) ->
     forall s, In s g -> str_le (leave_key s) (leave_key last)).
Proof.
  intros Hlen. pose proof (two_sessions_nonempty g Hlen) as Hg.
  destruct g as [|d g0] eqn:Eg; [congruence|]. rewrite <- Eg in *.
  destruct (sort_by_join_first g d Hg) as (l1 & first & l2 & Hg1 & Hhd & Hf1 & Hf2).
  destruct (sort_by_join_last g d Hg) as (l3 & last & l4 & Hg3 & Hlast & Hl3 & Hl4).
  assert (Hmax : forall s, In s g -> join_le s last).
  { intros s Hs. rewrite Hg3 in Hs. apply in_app_or in Hs.
    destruct Hs as [Hs|[<-|Hs]].
    - now apply Hl3.
    - apply str_le_refl.
    - apply str_lt_le. now apply Hl4. }
  exists {| name := Some (get_or (name first) "Unknown");
            user_email := Some (best_email_of (sort_by_join g));
            join_time := Some (join_key first);
            leave_time := Some (leave_key last);
            duration := Some (total_duration_of (sort_by_join g));
            status := Some (get_or (status first) "Unknown") |},
    first, l3, last, l4.
  split. { rewrite (_combine_sessions_eq g d Hg), Hhd, Hlast. reflexivity. }
  split. { rewrite Hg1. apply in_or_app. right. now left. }
  split; [reflexivity|].
  split.
  { intros s Hs. rewrite Hg1 in Hs. apply in_app_or in Hs.
    destruct Hs as [Hs|[<-|Hs]].
    - apply str_lt_le. now apply Hf1.
    - apply str_le_refl.
    - now apply Hf2. }
  split; [exact Hg3|]. split; [reflexivity|].
  split; [exact Hmax|]. split; [exact Hl4|].
  intros Hmono s Hs. apply Hmono; [exact Hs| |now apply Hmax].
  rewrite Hg3. apply in_or_app. right. now left.
Qed.

(** C2, as the code has it: the group is sorted in place before the
    scan, so the combined email is the first usable email in join-time
    order (encounter order only among equal join times, and so for a
    group already in join-time order); without a usable email it is
    ["N/A"]. *)
Theorem combine_sessions_best_email (g : list Participant) :
  (2 <= List.length g)%nat ->
  exists r,
    _combine_sessions g = Ok r /\
    ((exists before s after,
         sort_by_join g = (before ++ s :: after)%list /\
         usable_email s = true /\
         (forall y, In y before -> usable_email y = false) /\
         user_email r = Some (get_or (user_email s) ""))
     \/ ((forall s, In s g -> usable_email s = false) /\
         user_email r = Some "N/A")) /\
    (StronglySorted join_le g -> user_email r = Some (best_email_of g)).
Proof.
  intros Hlen. pose proof (two_sessions_nonempty g Hlen) as Hg.
  destruct g as [|d g0] eqn:Eg; [congruence|]. rewrite <- Eg in *.
  rewrite (_combine_sessions_eq g d Hg).
  eexists. split; [reflexivity|]. cbn [user_email]. split.
  - unfold best_email_of.
    destruct (find usable_email (sort_by_join g)) as [s|] eqn:Ef.
    + left. destruct (find_first _ _ _ Ef) as (b & a & Hs & Hu & Hb).
      exists b, s, a. auto.
    + right. split; [|reflexivity].
      intros s Hs. apply (find_none _ _ Ef). now apply sort_by_join_in.
  - intros Hsorted. now rewrite sort_by_join_sorted_id.
Qed.

(** C4: for a group of one or more sessions the merged record's duration,
    read with the default 0, is the sum of the members' durations; for two
    or more the field holds exactly that sum; and merging any permutation
    of the group gives the same total. *)
Theorem merged_duration_is_sum (g : list Participant) :
  (1 <= List.length g)%nat ->
  exists r,
    merged_record g = Ok r /\
    get_or (duration r) 0 = sum_of_durations g /\
    ((2 <= List.length g)%nat -> duration r = Some (sum_of_durations g)) /\
    (forall g', Permutation g g' ->
       exists r', merged_record g' = Ok r' /\
                  get_or (duration r') 0 = get_or (duration r) 0).
Proof.
  assert (Hone : forall h : list Participant, (1 <= List.length h)%nat ->
            exists r, merged_record h = Ok r /\
                      get_or (duration r) 0 = sum_of_durations h /\
                      ((2 <= List.length h)%nat ->
                       duration r = Some (sum_of_durations h))).
  { intros h Hh. destruct h as [|s [|s' h]]; [simpl in Hh; lia| |].
    - exists s. split; [reflexivity|]. split; [simpl; lia|].
      simpl. lia.
    - rewrite merged_record_eq by discriminate.
      rewrite (_combine_sessions_eq _ s) by discriminate.
      eexists. split; [reflexivity|]. cbn [duration get_or].
      rewrite total_duration_of_sorted. auto. }
  intros Hlen. destruct (Hone g Hlen) as (r & Hr & Hsum & Hfield).
  exists r. split; [exact Hr|]. split; [exact Hsum|]. split; [exact Hfield|].
  intros g' Hperm.
  destruct (Hone g') as (r' & Hr' & Hsum' & _).
  { rewrite <- (Permutation_length Hperm). exact Hlen. }
  exists r'. split; [exact Hr'|].
  rewrite Hsum, Hsum'. symmetry. now apply sum_of_durations_perm.
Qed.

End CombineClaims.

(* ================================================================== *)
(** * Facts about insertion-ordered dictionaries *)

Section DictFacts.
Context {K V : Type}.
Variable eqb : K -> K -> bool.
Hypothesis eqb_spec : forall a b : K, reflect (a = b) (eqb a b).

Lemma eqb_same (a : K) : eqb a a = true.
Proof. destruct (eqb_spec a a); congruence. Qed.

Lemma dict_get_set_same (k : K) (v : V) (d : Dict.t) :
  Dict.get eqb k (Dict.set eqb k v d) = Some v.
Proof.
  induction d as [|[a b] d IH]; simpl.
  - now rewrite eqb_same.
  - destruct (eqb k a) eqn:E; simpl; rewrite E; [reflexivity|exact IH].
Qed.

Lemma dict_get_in (k : K) (v : V) (d : Dict.t (K:=K) (V:=V)) :
  Dict.get eqb k d = Some v -> In (k, v) d.
Proof.
  induction d as [|[a b] d IH]; simpl; [discriminate|].
  destruct (eqb_spec k a) as [->|Hne].
  - intros [= ->]. now left.
  - intros H. right. now apply IH.
Qed.

Lemma dict_get_none (k : K) (d : Dict.t (K:=K) (V:=V)) :
  Dict.get eqb k d = None -> ~ In k (Dict.keys d).
Proof.
  induction d as [|[a b] d IH]; simpl; [tauto|].
  destruct (eqb_spec k a) as [->|Hne]; [discriminate|].
  intros H [Ha|Hin]; [congruence|]. now apply IH.
Qed.

Lemma dict_in_keys (k : K) (v : V) (d : Dict.t (K:=K) (V:=V)) :
  In (k, v) d -> In k (Dict.keys d).
Proof. intros H. apply (in_map fst) in H. exact H. Qed.

Lemma dict_keys_set (x k : K) (v : V) (d : Dict.t) :
  In x (Dict.keys (Dict.set eqb k v d)) <-> x = k \/ In x (Dict.keys d).
Proof.
  induction d as [|[a b] d IH]; simpl.
  - intuition congruence.
  - destruct (eqb_spec k a) as [->|Hne]; simpl.
    + intuition congruence.
    + rewrite IH. intuition congruence.
Qed.

Lemma dict_set_nodup (k : K) (v : V) (d : Dict.t) :
  NoDup (Dict.keys d) -> NoDup (Dict.keys (Dict.set eqb k v d)).
Proof.
  induction d as [|[a b] d IH]; simpl; intros Hnd.
  - constructor; [intros []|constructor].
  - inversion Hnd as [|? ? Ha Hd]; subst.
    destruct (eqb_spec k a) as [->|Hne]; simpl.
    + now constructor.
    + constructor; [|now apply IH].
      fold (Dict.keys (Dict.set eqb k v d)).
      rewrite dict_keys_set. intros [E|Hin]; [congruence|].
      now apply Ha.
Qed.

(** After [d[k] = v], [k] is bound to [v] and every other key is as it
    was. *)
Lemma dict_in_set (k k' : K) (v v' : V) (d : Dict.t) :
  NoDup (Dict.keys d) ->
  In (k', v') (Dict.set eqb k v d) <->
  (k' = k /\ v' = v) \/ (k' <> k /\ In (k', v') d).
Proof.
  induction d as [|[a b] d IH]; simpl; intros Hnd.
  - split.
    + intros [[= <- <-]|[]]. now left.
    + intros [[-> ->]|[_ []]]. now left.
  - inversion Hnd as [|? ? Ha Hd]; subst.
    destruct (eqb_spec k a) as [->|Hne]; simpl.
    + split.
      * intros [[= <- <-]|Hin]; [now left|].
        right. split; [|now right].
        intros ->. apply Ha. eapply dict_in_keys; eassumption.
      * intros [[-> ->]|[Hk [[= <- <-]|Hin]]];
          [now left | congruence | now right].
    + rewrite (IH Hd). split.
      * intros [[= <- <-]|[H|[Hk Hin]]];
          [right; split; [congruence | now left] | now left |].
        right. split; [exact Hk | now right].
      * intros [H|[Hk [[= <- <-]|Hin]]];
          [right; now left | now left |].
        right. right. now split.
Qed.

End DictFacts.

(* ================================================================== *)
(** * [_deduplicate_participants] *)

Section Grouping.
Import AttendanceReporter Spec.

Lemma sessions_of_key_snoc (k : string) (ps : list Participant)
    (p : Participant) :
  sessions_of_key k (ps ++ [p]) =
  (sessions_of_key k ps ++
     if String.eqb (identity_key p) k then [p] else [])%list.
Proof.
  unfold sessions_of_key. rewrite filter_app. simpl.
  now destruct (String.eqb (identity_key p) k).
Qed.

(** What one turn of the grouping loop does to the dictionary. *)
Lemma group_step_in (d : Groups) (p : Participant) (k : string)
    (g : list Participant) :
  NoDup (Dict.keys d) ->
  In (k, g) (group_step d p) <->
  (k = identity_key p /\
   g = (get_or (Dict.get String.eqb (identity_key p) d) [] ++ [p])%list)
  \/ (k <> identity_key p /\ In (k, g) d).
Proof.
  intros Hnd. unfold group_step.
  destruct (Dict.get String.eqb (identity_key p) d) as [g0|] eqn:Eg.
  - rewrite Eg. now apply dict_in_set; [apply String.eqb_spec|].
  - rewrite (dict_get_set_same _ String.eqb_spec).
    rewrite (dict_in_set _ String.eqb_spec);
      [|now apply dict_set_nodup; [apply String.eqb_spec|]].
    rewrite (dict_in_set _ String.eqb_spec) by exact Hnd.
    simpl. intuition congruence.
Qed.

Lemma group_step_nodup (d : Groups) (p : Participant) :
  NoDup (Dict.keys d) -> NoDup (Dict.keys (group_step d p)).
Proof.
  intros Hnd. unfold group_step.
  apply dict_set_nodup; [apply String.eqb_spec|].
  destruct (Dict.get String.eqb (identity_key p) d); [exact Hnd|].
  now apply dict_set_nodup; [apply String.eqb_spec|].
Qed.

Lemma participant_groups_of_snoc (ps : list Participant) (p : Participant) :
  participant_groups_of (ps ++ [p]) = group_step (participant_groups_of ps) p.
Proof. unfold participant_groups_of. now rewrite fold_left_app. Qed.

(** The dictionary after the grouping loop: its keys are distinct, and a
    key is bound exactly to the sessions carrying it, in encounter
    order, when there are any. *)
Lemma participant_groups_of_spec (ps : list Participant) :
  NoDup (Dict.keys (participant_groups_of ps)) /\
  forall k g,
    In (k, g) (participant_groups_of ps) <->
    (g <> [] /\ g = sessions_of_key k ps).
Proof.
  induction ps as [|p ps [IHnd IH]] using rev_ind.
  - split; [constructor|]. intros k g. simpl. split; [intros []|].
    intros [Hne ->]. now apply Hne.
  - rewrite participant_groups_of_snoc.
    split; [now apply group_step_nodup|].
    intros k g. rewrite (group_step_in _ _ _ _ IHnd).
    rewrite sessions_of_key_snoc.
    assert (Hget : get_or (Dict.get String.eqb (identity_key p)
                             (participant_groups_of ps)) [] =
                   sessions_of_key (identity_key p) ps).
    { destruct (Dict.get String.eqb (identity_key p)
                  (participant_groups_of ps)) as [g0|] eqn:Eg; simpl.
      - apply (dict_get_in _ String.eqb_spec) in Eg.
        apply IH in Eg. tauto.
      - apply (dict_get_none _ String.eqb_spec) in Eg.
        destruct (sessions_of_key (identity_key p) ps) as [|s l] eqn:Es;
          [reflexivity|].
        exfalso. apply Eg.
        apply (dict_in_keys (V:=list Participant)) with (v := (s :: l)).
        apply IH. split; [discriminate|]. now rewrite Es. }
    rewrite Hget.
    destruct (String.eqb_spec (identity_key p) k) as [E|E].
    + split.
      * intros [[_ ->]|[Hk _]]; [|congruence]. subst k.
        split; [|reflexivity]. now destruct (sessions_of_key _ ps).
      * intros [_ ->]. left. now subst k.
    + rewrite app_nil_r. rewrite <- IH. split.
      * intros [[Hk _]|[_ Hin]]; [congruence|exact Hin].
      * intros Hin. right. split; [congruence|exact Hin].
Qed.

Lemma foldM_merge_step (l : list (list Participant))
    (acc : list Participant) :
  Forall (fun g => g <> []) l ->
  exists out,
    foldM merge_step l acc = Ok (acc ++ out)%list /\
    Forall2 (fun g r => merged_record g = Ok r) l out.
Proof.
  intros Hl. revert acc.
  induction Hl as [|g l Hg Hl IH]; intros acc; simpl.
  - exists []. now rewrite app_nil_r.
  - destruct (merged_record_ok g Hg) as (r & Hr).
    unfold merge_step at 1. rewrite Hr. simpl.
    destruct (IH (acc ++ [r])%list) as (out & Hout & Hall).
    exists (r :: out). rewrite Hout, <- app_assoc. simpl.
    split; [reflexivity|]. now constructor.
Qed.

(** [_deduplicate_participants] never raises: it returns one record per
    group, the merged record of that group, in the order in which the
    keys were first seen. *)
Lemma _deduplicate_participants_ok (ps : list Participant) :
  exists out,
    _deduplicate_participants ps = Ok out /\
    Forall2 (fun g r => merged_record g = Ok r)
      (Dict.values (participant_groups_of ps)) out.
Proof.
  unfold _deduplicate_participants.
  destruct (foldM_merge_step (Dict.values (participant_groups_of ps)) [])
    as (out & Hout & Hall); [|eauto].
  apply Forall_forall. intros g Hg.
  apply in_map_iff in Hg. destruct Hg as ([k g'] & <- & Hin).
  apply participant_groups_of_spec in Hin. tauto.
Qed.

(** C3: the grouping puts two sessions of the input in one group exactly
    when they have the same identity key: the trimmed, lower-cased email
    when that is neither empty nor ["n/a"], otherwise the trimmed,
    lower-cased name. Every group holds all the sessions of its key, and
    no two groups share a key. Emails ["A@X.com"] and ["a@x.com "] give
    one group; two sessions without email named ["Bob"] and ["BOB"] give
    one group under ["bob"]. *)
Theorem groups_by_identity_key :
  (forall p,
      identity_key p =
      let email := PyStr.lower (PyStr.strip (get_or (user_email p) "")) in
      if (PyStr.truthy email && negb (String.eqb email "n/a"))%bool
      then email
      else PyStr.lower (PyStr.strip (get_or (name p) ""))) /\
  (forall ps,
      NoDup (Dict.keys (participant_groups_of ps)) /\
      (forall k g,
          In (k, g) (participant_groups_of ps) <->
          (g <> [] /\ g = sessions_of_key k ps)) /\
      (forall p q, In p ps -> In q ps ->
          ((exists k g, In (k, g) (participant_groups_of ps) /\
                        In p g /\ In q g)
           <-> identity_key p = identity_key q))) /\
  (forall p q,
      user_email p = Some "A@X.com" -> user_email q = Some "a@x.com " ->
      participant_groups_of [p; q] = [("a@x.com", [p; q])]) /\
  (forall p q,
      user_email p = Some "" -> user_email q = Some "" ->
      name p = Some "Bob" -> name q = Some "BOB" ->
      participant_groups_of [p; q] = [("bob", [p; q])]).
Proof.
  split; [reflexivity|]. split; [|split].
  - intros ps. destruct (participant_groups_of_spec ps) as [Hnd Hin].
    split; [exact Hnd|]. split; [exact Hin|].
    intros p q Hp Hq. split.
    + intros (k & g & Hg & Hpg & Hqg). apply Hin in Hg.
      destruct Hg as [_ ->]. unfold sessions_of_key in *.
      apply filter_In in Hpg, Hqg.
      destruct Hpg as [_ Ep], Hqg as [_ Eq].
      apply String.eqb_eq in Ep, Eq. congruence.
    + intros E. exists (identity_key p), (sessions_of_key (identity_key p) ps).
      assert (Hpin : In p (sessions_of_key (identity_key p) ps)).
      { apply filter_In. split; [exact Hp|]. apply String.eqb_refl. }
      split; [|split; [exact Hpin|]].
      * apply Hin. split; [|reflexivity]. intros Hnil.
        rewrite Hnil in Hpin. destruct Hpin.
      * apply filter_In. split; [exact Hq|]. rewrite E.
        apply String.eqb_refl.
  - intros p q Hp Hq.
    assert (Kp : identity_key p = "a@x.com")
      by (unfold identity_key; rewrite Hp; reflexivity).
    assert (Kq : identity_key q = "a@x.com")
      by (unfold identity_key; rewrite Hq; reflexivity).
    unfold participant_groups_of, group_step. simpl.
    rewrite Kp, Kq. reflexivity.
  - intros p q Hp Hq Np Nq.
    assert (Kp : identity_key p = "bob")
      by (unfold identity_key; rewrite Hp, Np; reflexivity).
    assert (Kq : identity_key q = "bob")
      by (unfold identity_key; rewrite Hq, Nq; reflexivity).
    unfold participant_groups_of, group_step. simpl.
    rewrite Kp, Kq. reflexivity.
Qed.

End Grouping.

(* ================================================================== *)
(** * [generate_report] *)

Section ReportFacts.
Import ZoomAPI AttendanceReporter Spec.

Variable la_strftime : string -> DateTime.t -> option string.
Variable get_participants : string -> list Participant.

Local Abbreviation meeting_step := (meeting_step la_strftime get_participants).
Local Abbreviation report_of := (report_of la_strftime get_participants).
Local Abbreviation row_for := (row_for la_strftime).

Lemma foldM_app {A B : Type} (f : A -> B -> result A) (l1 l2 : list B)
    (acc : A) :
  foldM f (l1 ++ l2) acc = (acc' <- foldM f l1 acc ;; foldM f l2 acc').
Proof.
  revert acc. induction l1 as [|x l1 IH]; intros acc; simpl; [reflexivity|].
  destruct (f acc x); simpl; [apply IH|reflexivity].
Qed.

(** The inner loop appends one row and one name per record. *)
Lemma participant_loop (start_time : string) (ded : list Participant)
    (rows : list ReportRow) (names : list string) :
  fold_left (participant_step la_strftime start_time) ded (rows, names) =
  ((rows ++ map (fun r => row_for start_time (shown_name r)) ded)%list,
   (names ++ map shown_name ded)%list).
Proof.
  revert rows names. induction ded as [|r ded IH]; intros rows names; simpl.
  - now rewrite !app_nil_r.
  - rewrite IH, <- !app_assoc. reflexivity.
Qed.

(** The rows and names one meeting adds to the report. *)
Lemma meeting_step_adds (rows : list ReportRow) (names : list string)
    (m : Meeting) :
  exists new_rows new_names,
    (forall rows names,
        meeting_step (rows, names) m =
        Ok ((rows ++ new_rows)%list, (names ++ new_names)%list)) /\
    map participant_name new_rows = new_names /\
    (get_participants (py_str (occurrence_id m)) = [] ->
     new_rows = [row_for (get_or (start_time m) "") "No attendees"] /\
     new_names = ["No attendees"]).
Proof.
  destruct (get_participants (py_str (occurrence_id m))) as [|p ps] eqn:Ep.
  - exists [row_for (get_or (start_time m) "") "No attendees"],
      ["No attendees"].
    split; [|split; [reflexivity|auto]].
    intros rows' names'. unfold AttendanceReporter.meeting_step.
    now rewrite Ep.
  - destruct (_deduplicate_participants_ok (p :: ps)) as (out & Hout & _).
    exists (map (fun r => row_for (get_or (start_time m) "") (shown_name r)) out),
      (map shown_name out).
    split; [|split; [|discriminate]].
    + intros rows' names'. unfold AttendanceReporter.meeting_step.
      rewrite Ep, Hout. simpl. now rewrite participant_loop.
    + rewrite map_map. reflexivity.
Qed.

(** The loop over the meetings never raises, and what it adds does not
    depend on what was gathered before. *)
Lemma meetings_loop (ms : list Meeting) :
  exists new_rows new_names,
    (forall rows names,
        foldM meeting_step ms (rows, names) =
        Ok ((rows ++ new_rows)%list, (names ++ new_names)%list)) /\
    map participant_name new_rows = new_names.
Proof.
  induction ms as [|m ms (rs & ns & Hloop & Hmap)].
  - exists [], []. split; [|reflexivity].
    intros rows names. simpl. now rewrite !app_nil_r.
  - destruct (meeting_step_adds [] [] m) as (r1 & n1 & Hstep & Hmap1 & _).
    exists (r1 ++ rs)%list, (n1 ++ ns)%list. split.
    + intros rows names. cbn [foldM]. rewrite Hstep. cbn [bind].
      rewrite Hloop, <- !app_assoc. reflexivity.
    + rewrite map_app, Hmap, Hmap1. reflexivity.
Qed.

Lemma report_of_loop (ms : list Meeting) :
  report_of ms = foldM meeting_step ms ([], []).
Proof. now destruct ms. Qed.

Lemma report_of_aligned (ms : list Meeting) :
  exists rows names,
    report_of ms = Ok (rows, names) /\ map participant_name rows = names.
Proof.
  destruct (meetings_loop ms) as (rs & ns & Hloop & Hmap).
  exists rs, ns. rewrite report_of_loop, Hloop. auto.
Qed.

(** C5: a meeting whose participant list comes back empty adds exactly
    one row, named ["No attendees"], and that string once to the list of
    names: the report of [before ++ m :: after] is the report of [before],
    then that row, then the report of [after]. *)
Theorem empty_meeting_placeholder (before after : list Meeting) (m : Meeting) :
  get_participants (py_str (occurrence_id m)) = [] ->
  exists rb nb ra na,
    report_of before = Ok (rb, nb) /\
    report_of after = Ok (ra, na) /\
    report_of (before ++ m :: after) =
    Ok ((rb ++ [row_for (get_or (start_time m) "") "No attendees"] ++ ra)%list,
        (nb ++ ["No attendees"] ++ na)%list) /\
    participant_name (row_for (get_or (start_time m) "") "No attendees")
    = "No attendees".
Proof.
  intros Hempty.
  destruct (meetings_loop before) as (rb & nb & Hb & _).
  destruct (meetings_loop after) as (ra & na & Ha & _).
  destruct (meeting_step_adds [] [] m) as (r1 & n1 & Hstep & _ & Hone).
  destruct (Hone Hempty) as [-> ->].
  exists rb, nb, ra, na.
  rewrite !report_of_loop, Hb, Ha. split; [reflexivity|].
  split; [reflexivity|]. split; [|reflexivity].
  rewrite foldM_app, Hb. cbn [bind foldM]. rewrite Hstep. cbn [bind].
  rewrite Ha, <- !app_assoc. reflexivity.
Qed.

Variable past_instances : string -> list Meeting.
Variable all_meetings : list Meeting.
Variables cutoff_user cutoff_time : DateTime.t.

(** C10: every run of [generate_report] returns, and its two results are
    aligned: as many names as rows, and the i-th name is the participant
    name of the i-th row. *)
Theorem generate_report_aligned (meeting_id : option string) :
  exists rows names,
    generate_report la_strftime get_participants past_instances
      all_meetings cutoff_user cutoff_time meeting_id = Ok (rows, names) /\
    List.length rows = List.length names /\
    map participant_name rows = names /\
    forall i, nth_error names i = option_map participant_name (nth_error rows i).
Proof.
  unfold generate_report.
  match goal with
  | |- context [AttendanceReporter.report_of _ _ ?ms] =>
      destruct (report_of_aligned ms) as (rows & names & Hr & Hmap)
  end.
  exists rows, names. split; [exact Hr|]. subst names.
  split; [now rewrite length_map|]. split; [reflexivity|].
  intros i. apply nth_error_map.
Qed.

End ReportFacts.

Section ReportNames.
Import ZoomAPI AttendanceReporter Spec.

(** The record merged from a group shows the name of the group's first
    session in join-time order, defaulted when that session has none. *)
Lemma merged_record_first (g : list Participant) (r : Participant) :
  merged_record g = Ok r ->
  exists l1 first l2,
    g = (l1 ++ first :: l2)%list /\
    (forall y, In y l1 -> join_lt first y) /\
    (forall y, In y l2 -> join_le first y) /\
    shown_name r = get_or (name first) "Unknown".
Proof.
  destruct g as [|s [|s' g]].
  - discriminate.
  - intros [= <-]. exists [], s, [].
    split; [reflexivity|]. split; [intros y []|]. split; [intros y []|].
    reflexivity.
  - destruct (sort_by_join_first (s :: s' :: g) s) as
      (l1 & first & l2 & Hg & Hhd & H1 & H2); [discriminate|].
    rewrite merged_record_eq by discriminate.
    rewrite (_combine_sessions_eq _ s) by discriminate.
    rewrite Hhd. intros [= <-].
    exists l1, first, l2. auto.
Qed.

Variable la_strftime : string -> DateTime.t -> option string.
Variable get_participants : string -> list Participant.

(** C9, as the code has it: the default ["Unknown"] is the default of
    [get("name", "Unknown")], so it applies to an absent name, not to an
    empty one. For a meeting with participants, the rows carry, group by
    group, the name of the group's first session in join-time order (for a
    lone session, its own): ["Unknown"] when that session has no name
    field, and the name as it is, the empty string included, when it has
    one. *)
Theorem report_row_name_default (m : Meeting) :
  get_participants (py_str (occurrence_id m)) <> [] ->
  exists out,
    (forall rows names,
        meeting_step la_strftime get_participants (rows, names) m =
        Ok ((rows ++ map (fun r => row_for la_strftime
                                     (get_or (start_time m) "") (shown_name r))
                       out)%list,
            (names ++ map shown_name out)%list)) /\
    Forall2
      (fun g r =>
         exists l1 first l2,
           g = (l1 ++ first :: l2)%list /\
           (forall y, In y l1 -> join_lt first y) /\
           (forall y, In y l2 -> join_le first y) /\
           (name first = None -> shown_name r = "Unknown") /\
           (forall n, name first = Some n -> shown_name r = n))
      (Dict.values
         (participant_groups_of (get_participants (py_str (occurrence_id m)))))
      out.
Proof.
  intros Hne.
  destruct (get_participants (py_str (occurrence_id m))) as [|p ps] eqn:Ep;
    [congruence|].
  destruct (_deduplicate_participants_ok (p :: ps)) as (out & Hout & Hall).
  exists out. split.
  - intros rows names. unfold meeting_step.
    rewrite Ep, Hout. cbn [bind]. now rewrite participant_loop.
  - eapply Forall2_impl; [|exact Hall].
    intros g r Hr. destruct (merged_record_first g r Hr) as
      (l1 & first & l2 & Hg & H1 & H2 & Hname).
    exists l1, first, l2. rewrite Hname.
    split; [exact Hg|]. split; [exact H1|]. split; [exact H2|].
    split; [intros ->; reflexivity | intros n ->; reflexivity].
Qed.

End ReportNames.

(* ================================================================== *)
(** * [get_meetings] and [get_meeting_instances] *)

Section Instances.
Import ZoomAPI Spec.

Lemma ident_eqb_spec (a b : Ident) : reflect (a = b) (ident_eqb a b).
Proof.
  destruct a as [s|n], b as [s'|n']; simpl; try (constructor; discriminate).
  - destruct (String.eqb_spec s s'); constructor; congruence.
  - destruct (Z.eqb_spec n n'); constructor; congruence.
Qed.

(** A loop that appends the elements passing a test is a filter. *)
Lemma append_loop_filter {A : Type} (f : A -> bool) (l acc : list A) :
  fold_left (fun acc x => if f x then (acc ++ [x])%list else acc) l acc =
  (acc ++ filter f l)%list.
Proof.
  revert acc. induction l as [|x l IH]; intros acc; simpl.
  - now rewrite app_nil_r.
  - rewrite IH. destruct (f x); [|reflexivity].
    now rewrite <- app_assoc.
Qed.

Lemma get_meetings_filter (all_meetings : list Meeting) (cutoff : DateTime.t) :
  get_meetings all_meetings cutoff = filter (started_since cutoff) all_meetings.
Proof. unfold get_meetings. now rewrite append_loop_filter. Qed.

Lemma last_entering_snoc (cutoff : DateTime.t) (k : Ident) (l : list Meeting)
    (x : Meeting) :
  last_entering cutoff k (l ++ [x]) =
  if enters_as cutoff k x then Some x else last_entering cutoff k l.
Proof. unfold last_entering. rewrite rev_app_distr. reflexivity. Qed.

Lemma find_app {A : Type} (f : A -> bool) (l1 l2 : list A) :
  find f (l1 ++ l2) =
  match find f l1 with
  | Some x => Some x
  | None => find f l2
  end.
Proof.
  induction l1 as [|x l1 IH]; simpl; [reflexivity|].
  now destruct (f x).
Qed.

Lemma last_entering_in (cutoff : DateTime.t) (k : Ident) (l : list Meeting)
    (r : Meeting) :
  last_entering cutoff k l = Some r ->
  In r l /\ started_since cutoff r = true /\ occurrence_id r = Some k /\
  truthy (Some k) = true.
Proof.
  unfold last_entering. intros H. apply find_some in H.
  destruct H as [Hin He]. split; [now apply in_rev|].
  unfold enters_as in He. apply andb_true_iff in He. destruct He as [Hs Hid].
  split; [exact Hs|].
  destruct (occurrence_id r) as [u|]; [|discriminate].
  apply andb_true_iff in Hid. destruct Hid as [Hu Ht].
  destruct (ident_eqb_spec u k); [subst; auto|discriminate].
Qed.

(** The dictionary after the deduplication loop: a key is bound to the
    last instance that entered under it. *)
Lemma unique_instances_spec (cutoff : DateTime.t) (l : list Meeting) :
  NoDup (Dict.keys (fold_left (unique_step cutoff) l [])) /\
  forall k v,
    In (k, v) (fold_left (unique_step cutoff) l []) <->
    last_entering cutoff k l = Some v.
Proof.
  induction l as [|x l [IHnd IH]] using rev_ind.
  - split; [constructor|]. intros k v. simpl. split; [intros []|discriminate].
  - rewrite fold_left_app. cbn [fold_left].
    set (d := fold_left (unique_step cutoff) l []) in *.
    unfold unique_step.
    assert (Hskip : (forall k, enters_as cutoff k x = false) ->
              NoDup (Dict.keys d) /\
              forall k v, In (k, v) d <->
                          last_entering cutoff k (l ++ [x]) = Some v).
    { intros Hno. split; [exact IHnd|]. intros k v.
      rewrite last_entering_snoc, Hno. apply IH. }
    destruct (started_since cutoff x) eqn:Es;
      [|apply Hskip; intros k; unfold enters_as; now rewrite Es].
    destruct (occurrence_id x) as [u|] eqn:Eu;
      [|apply Hskip; intros k; unfold enters_as; now rewrite Es, Eu].
    destruct (truthy (Some u)) eqn:Et;
      [|apply Hskip; intros k; unfold enters_as; rewrite Es, Eu, Et;
        now rewrite andb_false_r].
    split; [now apply dict_set_nodup; [apply ident_eqb_spec|]|].
    intros k v. rewrite (dict_in_set _ ident_eqb_spec) by exact IHnd.
    rewrite last_entering_snoc. unfold enters_as. rewrite Es, Eu, Et.
    cbn [andb]. rewrite andb_true_r.
    destruct (ident_eqb_spec u k) as [->|Hne].
    + split.
      * intros [[_ ->]|[Hk _]]; congruence.
      * intros [= ->]. now left.
    + rewrite <- IH. split.
      * intros [[Hk _]|[_ Hin]]; [congruence|exact Hin].
      * intros Hin. right. split; [congruence|exact Hin].
Qed.

Lemma nodup_map_some {A : Type} (l : list A) :
  NoDup l -> NoDup (map Some l).
Proof.
  induction 1 as [|x l Hx Hl IH]; simpl; constructor; [|exact IH].
  rewrite in_map_iff. intros (y & [= ->] & Hy). now apply Hx.
Qed.

Lemma instances_of_both_sources (meeting_id : string)
    (past_instances all_meetings : list Meeting)
    (cutoff_user cutoff_time : DateTime.t) :
  get_meeting_instances meeting_id past_instances all_meetings
    cutoff_user cutoff_time =
  Dict.values
    (fold_left (unique_step cutoff_time)
       (past_instances ++
          matching_user_meetings meeting_id all_meetings cutoff_user) []).
Proof.
  unfold get_meeting_instances, matching_user_meetings.
  now rewrite get_meetings_filter, append_loop_filter.
Qed.

(** C6, as the code has it: the occurrences returned for a meeting are
    those of the instances request followed by the matching entries of the
    user listing, one per identifier among those that start at or after
    the cutoff of the last filter and have an identifier; no identifier
    occurs twice. When the second source has an occurrence that passes
    that filter under an identifier, the copy kept for that identifier is
    the second source's (its last one), whatever the first source holds.
    With one clock reading for both filters, every entry of the second
    source that has an identifier passes. *)
Theorem occurrences_deduplicated_last_wins (meeting_id : string)
    (past_instances all_meetings : list Meeting)
    (cutoff_user cutoff_time : DateTime.t) :
  let second := matching_user_meetings meeting_id all_meetings cutoff_user in
  let result := get_meeting_instances meeting_id past_instances all_meetings
                  cutoff_user cutoff_time in
  NoDup (map occurrence_id result) /\
  (forall r, In r result <->
             exists k, last_entering cutoff_time k (past_instances ++ second)
                       = Some r) /\
  (forall m k, In m (past_instances ++ second) ->
               enters_as cutoff_time k m = true ->
               exists r, In r result /\ occurrence_id r = Some k) /\
  (forall m2 k, In m2 second -> enters_as cutoff_time k m2 = true ->
     exists r,
       In r result /\ occurrence_id r = Some k /\
       In r second /\ last_entering cutoff_time k second = Some r /\
       forall r', In r' result -> occurrence_id r' = Some k -> r' = r) /\
  (cutoff_time = cutoff_user ->
   forall m2 k, In m2 second -> occurrence_id m2 = Some k ->
                truthy (Some k) = true ->
                enters_as cutoff_time k m2 = true).
Proof.
  intros second result. subst result.
  rewrite instances_of_both_sources. fold second.
  set (l := (past_instances ++ second)%list).
  destruct (unique_instances_spec cutoff_time l) as [Hnd Hin].
  set (d := fold_left (unique_step cutoff_time) l []) in *.
  assert (Hval : forall r, In r (Dict.values d) <->
                           exists k, last_entering cutoff_time k l = Some r).
  { intros r. unfold Dict.values. rewrite in_map_iff. split.
    - intros ([k v] & <- & Hkv). exists k. now apply Hin.
    - intros (k & Hk). exists (k, r). split; [reflexivity|now apply Hin]. }
  assert (Hids : map occurrence_id (Dict.values d) = map Some (Dict.keys d)).
  { unfold Dict.values, Dict.keys. rewrite !map_map.
    apply map_ext_in. intros [k v] Hkv. simpl.
    apply Hin, last_entering_in in Hkv. tauto. }
  assert (Hsome : forall m k, In m l -> enters_as cutoff_time k m = true ->
            exists r, last_entering cutoff_time k l = Some r).
  { intros m k Hm He. unfold last_entering.
    destruct (find (enters_as cutoff_time k) (rev l)) as [r|] eqn:Ef; [eauto|].
    apply in_rev in Hm. pose proof (find_none _ _ Ef m Hm). congruence. }
  split; [|split; [exact Hval|split; [|split]]].
  - rewrite Hids. now apply nodup_map_some.
  - intros m k Hm He. destruct (Hsome m k Hm He) as (r & Hr).
    exists r. split; [apply Hval; eauto|].
    apply last_entering_in in Hr. tauto.
  - intros m2 k Hm2 He.
    assert (Hsec : exists r, last_entering cutoff_time k second = Some r).
    { unfold last_entering.
      destruct (find (enters_as cutoff_time k) (rev second)) as [r|] eqn:Ef;
        [eauto|].
      apply in_rev in Hm2. pose proof (find_none _ _ Ef m2 Hm2). congruence. }
    destruct Hsec as (r & Hr).
    assert (Hl : last_entering cutoff_time k l = Some r).
    { unfold last_entering, l in *. rewrite rev_app_distr, find_app.
      now rewrite Hr. }
    exists r. split; [apply Hval; eauto|].
    pose proof (last_entering_in _ _ _ _ Hr) as (Hrin & _ & Hrid & _).
    split; [exact Hrid|]. split; [exact Hrin|]. split; [exact Hr|].
    intros r' Hr' Hid'. apply Hval in Hr'. destruct Hr' as (k' & Hk').
    pose proof (last_entering_in _ _ _ _ Hk') as (_ & _ & Hid'' & _).
    assert (k' = k) by congruence. subst k'. congruence.
  - intros E m2 k Hm2 Hid Ht. unfold second, matching_user_meetings in Hm2.
    apply filter_In in Hm2. destruct Hm2 as [Hm2 _].
    apply filter_In in Hm2. destruct Hm2 as [_ Hs].
    unfold enters_as. rewrite E, Hs, Hid, Ht.
    now destruct (ident_eqb_spec k k).
Qed.

End Instances.

(* ================================================================== *)
(** * [TimeHelper] *)

Section ParseTimeInput.
Import TimeHelper Spec.

Lemma last_char_lstrip (s : string) (u : ascii) :
  PyStr.last_char s = Some u -> PyStr.is_space u = false ->
  PyStr.last_char (PyStr.lstrip s) = Some u.
Proof.
  induction s as [|c s IH]; [discriminate|]. intros Hl Hu.
  cbn [PyStr.lstrip]. destruct (PyStr.is_space c) eqn:Ec; [|exact Hl].
  destruct s as [|c' s]; [simpl in Hl; congruence|].
  apply IH; [exact Hl|exact Hu].
Qed.

Lemma last_char_rstrip (s : string) (u : ascii) :
  PyStr.last_char s = Some u -> PyStr.is_space u = false ->
  PyStr.last_char (PyStr.rstrip s) = Some u.
Proof.
  induction s as [|c s IH]; [discriminate|]. intros Hl Hu.
  destruct s as [|c' s].
  - simpl in Hl. injection Hl as ->. simpl. now rewrite Hu.
  - specialize (IH Hl Hu). cbn [PyStr.rstrip] in *.
    destruct (match PyStr.rstrip s with
              | EmptyString =>
                  if PyStr.is_space c' then EmptyString
                  else String c' EmptyString
              | String a r => String c' (String a r)
              end) as [|a r] eqn:Er; [discriminate IH|exact IH].
Qed.

Lemma last_char_int_lstrip (s : string) (u : ascii) :
  PyStr.last_char s = Some u -> PyStr.is_int_space u = false ->
  PyStr.last_char (PyStr.int_lstrip s) = Some u.
Proof.
  induction s as [|c s IH]; [discriminate|]. intros Hl Hu.
  cbn [PyStr.int_lstrip]. destruct (PyStr.is_int_space c) eqn:Ec; [|exact Hl].
  destruct s as [|c' s]; [simpl in Hl; congruence|].
  apply IH; [exact Hl|exact Hu].
Qed.

Lemma last_char_int_rstrip (s : string) (u : ascii) :
  PyStr.last_char s = Some u -> PyStr.is_int_space u = false ->
  PyStr.last_char (PyStr.int_rstrip s) = Some u.
Proof.
  induction s as [|c s IH]; [discriminate|]. intros Hl Hu.
  destruct s as [|c' s].
  - simpl in Hl. injection Hl as ->. simpl. now rewrite Hu.
  - specialize (IH Hl Hu). cbn [PyStr.int_rstrip] in *.
    destruct (match PyStr.int_rstrip s with
              | EmptyString =>
                  if PyStr.is_int_space c' then EmptyString
                  else String c' EmptyString
              | String a r => String c' (String a r)
              end) as [|a r] eqn:Er; [discriminate IH|exact IH].
Qed.

Lemma last_char_in (s : string) (u : ascii) :
  PyStr.last_char s = Some u -> In u (list_ascii_of_string s).
Proof.
  induction s as [|c s IH]; [discriminate|].
  destruct s as [|c' s]; simpl.
  - intros [= ->]. now left.
  - intros H. right. now apply IH.
Qed.

Lemma int_digits_chars (l : list ascii) :
  forall (b : bool) (ds : list ascii),
    PyStr.int_digits b l = Some ds ->
    forall c, In c l -> PyStr.is_digit c = true \/ c = "_"%char.
Proof.
  induction l as [|x l IH]; intros b ds H c Hc; [destruct Hc|].
  simpl in H. destruct (PyStr.is_digit x) eqn:Ex.
  - destruct (PyStr.int_digits true l) as [ds'|] eqn:Ed; [|discriminate].
    destruct Hc as [<-|Hc]; [now left | eapply IH; eassumption].
  - destruct (Ascii.eqb_spec x "_"%char) as [->|Hne]; [|discriminate].
    destruct b; [|discriminate]. simpl in H.
    destruct Hc as [<-|Hc]; [now right | eapply IH; eassumption].
Qed.

Lemma is_unit_cases (u : ascii) :
  is_unit u = true -> u = "h"%char \/ u = "m"%char \/ u = "d"%char.
Proof.
  unfold is_unit. intros H.
  apply orb_true_iff in H. destruct H as [H|H];
    [apply orb_true_iff in H; destruct H as [H|H]|];
    apply Ascii.eqb_eq in H; auto.
Qed.

(** [int] rejects every text that ends in a unit letter. *)
Lemma int_rejects_unit_suffix (t : string) (u : ascii) :
  PyStr.last_char t = Some u -> is_unit u = true -> PyStr.int t = None.
Proof.
  intros Hl Hu.
  assert (Hfacts : PyStr.is_int_space u = false /\ PyStr.is_digit u = false /\
                   u <> "_"%char /\ Ascii.eqb u "-" = false /\
                   Ascii.eqb u "+" = false).
  { destruct (is_unit_cases u Hu) as [-> | [-> | ->]];
      repeat split; try reflexivity; discriminate. }
  destruct Hfacts as (Hsp & Hdg & Hus & Hm & Hp).
  assert (Hin : In u (list_ascii_of_string (PyStr.int_strip t))).
  { apply last_char_in. unfold PyStr.int_strip.
    apply last_char_int_rstrip; [|exact Hsp]. now apply last_char_int_lstrip. }
  unfold PyStr.int.
  destruct (list_ascii_of_string (PyStr.int_strip t)) as [|c rest];
    [destruct Hin|].
  assert (Hrest : forall b (l : list ascii), In u l ->
            match PyStr.int_digits false l with
            | Some ds =>
                if Nat.leb (List.length ds) PyStr.int_max_str_digits
                then Some (if b : bool then - PyStr.digits_val ds
                           else PyStr.digits_val ds)
                else None
            | None => None
            end = None).
  { intros b l Hl'. destruct (PyStr.int_digits false l) as [ds|] eqn:Ed;
      [|reflexivity].
    destruct (int_digits_chars l false ds Ed u Hl') as [H|H]; congruence. }
  destruct Hin as [->|Hin].
  - rewrite Hm, Hp. apply (Hrest false). now left.
  - destruct (Ascii.eqb c "-"); [now apply (Hrest true)|].
    destruct (Ascii.eqb c "+"); [now apply (Hrest false)|].
    apply (Hrest false). now right.
Qed.

Lemma last_char_snoc (p : string) (u : ascii) :
  PyStr.last_char (p ++ String u "") = Some u.
Proof.
  induction p as [|c p IH]; [reflexivity|].
  simpl. destruct (p ++ String u "")%string eqn:E; [|exact IH].
  destruct p; discriminate E.
Qed.

Lemma but_last_snoc (p : string) (u : ascii) :
  PyStr.but_last (p ++ String u "") = p.
Proof.
  induction p as [|c p IH]; [reflexivity|].
  simpl. destruct (p ++ String u "")%string eqn:E.
  - destruct p; discriminate E.
  - now rewrite IH.
Qed.

Lemma last_char_none (t : string) : PyStr.last_char t = None -> t = "".
Proof.
  induction t as [|c t IH]; [reflexivity|].
  destruct t as [|c' t]; [discriminate|].
  intros H. specialize (IH H). discriminate IH.
Qed.

Lemma but_last_last (t : string) (u : ascii) :
  PyStr.last_char t = Some u -> t = (PyStr.but_last t ++ String u "")%string.
Proof.
  induction t as [|c t IH]; [discriminate|].
  destruct t as [|c' t].
  - intros [= ->]. reflexivity.
  - intros H. specialize (IH H).
    change (String c (String c' t) =
            String c (PyStr.but_last (String c' t) ++ String u "")%string).
    now rewrite <- IH.
Qed.

Lemma make_total (d h m : Z) :
  representable (d * 86400 + h * 3600 + m * 60) ->
  exists td, TimeDelta.make d h m = Ok td /\
             TimeDelta.total_seconds td = d * 86400 + h * 3600 + m * 60.
Proof.
  unfold representable, TimeDelta.make. intros Hr.
  apply Z.leb_le in Hr. rewrite Hr. eexists. split; [reflexivity|].
  unfold TimeDelta.total_seconds. simpl.
  pose proof (Z.div_mod (d * 86400 + h * 3600 + m * 60) 86400). lia.
Qed.

Lemma make_days (n : Z) :
  representable (n * 86400) -> TimeDelta.make n 0 0 = Ok (TimeDelta.mk n 0).
Proof.
  unfold representable, TimeDelta.make. intros Hr.
  replace (n * 86400 + 0 * 3600 + 0 * 60) with (n * 86400) by lia.
  rewrite Z.div_mul in * by lia. rewrite Z.mod_mul by lia.
  apply Z.leb_le in Hr. now rewrite Hr.
Qed.

Lemma truthy_nonempty (t : string) : t <> "" -> PyStr.truthy t = true.
Proof. destruct t; [congruence|reflexivity]. Qed.

(** C7, as the code has it. With [t] the trimmed, lower-cased input:
    an integer followed by [h], [m] or [d] gives that many hours, minutes
    or days; a bare integer gives that many days; the empty text and every
    other text give one day. (Durations outside the range of [timedelta]
    are left out.) *)
Theorem parse_time_input_cases (time_input : string) :
  let t := PyStr.lower (PyStr.strip time_input) in
  (t = "" -> parse_time_input time_input = Ok (TimeDelta.mk 1 0)) /\
  (forall p u n,
      t = (p ++ String u "")%string -> is_unit u = true ->
      PyStr.int p = Some n -> representable (n * unit_seconds u) ->
      exists td, parse_time_input time_input = Ok td /\
                 TimeDelta.total_seconds td = n * unit_seconds u) /\
  (forall n,
      PyStr.int t = Some n -> representable (n * 86400) ->
      parse_time_input time_input = Ok (TimeDelta.mk n 0)) /\
  (t <> "" ->
   (forall p u, t = (p ++ String u "")%string -> is_unit u = true ->
                PyStr.int p = None) ->
   PyStr.int t = None ->
   parse_time_input time_input = Ok (TimeDelta.mk 1 0)).
Proof.
  intros t. unfold parse_time_input. fold t. clearbody t.
  split; [intros ->; reflexivity|]. split; [|split].
  - intros p u n Ht Hu Hp Hr. subst t.
    rewrite (truthy_nonempty (p ++ String u ""))
      by (destruct p; discriminate).
    cbn [negb]. rewrite last_char_snoc, Hu.
    unfold with_unit. rewrite but_last_snoc, Hp.
    unfold unit_seconds in Hr |- *.
    destruct (is_unit_cases u Hu) as [-> | [-> | ->]]; cbn [Ascii.eqb Bool.eqb] in *.
    + destruct (make_total 0 n 0) as (td & Htd & Hs);
        [now replace (0 * 86400 + n * 3600 + 0 * 60) with (n * 3600) by lia|].
      exists td. split; [exact Htd|]. rewrite Hs. lia.
    + destruct (make_total 0 0 n) as (td & Htd & Hs);
        [now replace (0 * 86400 + 0 * 3600 + n * 60) with (n * 60) by lia|].
      exists td. split; [exact Htd|]. rewrite Hs. lia.
    + destruct (make_total n 0 0) as (td & Htd & Hs);
        [now replace (n * 86400 + 0 * 3600 + 0 * 60) with (n * 86400) by lia|].
      exists td. split; [exact Htd|]. rewrite Hs. lia.
  - intros n Hn Hr.
    destruct (PyStr.truthy t) eqn:Et;
      [|destruct t; [discriminate Hn|discriminate Et]].
    cbn [negb]. destruct (PyStr.last_char t) as [u|] eqn:El;
      [|apply last_char_none in El; subst t; discriminate Et].
    destruct (is_unit u) eqn:Eu.
    + rewrite (int_rejects_unit_suffix t u El Eu) in Hn. discriminate Hn.
    + unfold as_days. rewrite Hn. now apply make_days.
  - intros Hne Hform Hint.
    rewrite (truthy_nonempty t Hne). cbn [negb].
    destruct (PyStr.last_char t) as [u|] eqn:El.
    + assert (Hdays : as_days t = Ok (TimeDelta.mk 1 0))
        by (unfold as_days; now rewrite Hint).
      destruct (is_unit u) eqn:Eu; [|exact Hdays].
      unfold with_unit.
      rewrite (Hform (PyStr.but_last t) u);
        [exact Hdays | now apply but_last_last | exact Eu].
    + apply last_char_none in El. congruence.
Qed.

End ParseTimeInput.

Section Conversions.
Import TimeHelper Spec.

Variable la_strftime : string -> DateTime.t -> option string.

(** C8, as the code has it: both conversions answer ["Unknown"] for the
    empty text and for the text ["Unknown"]; a text that does not parse is
    handed back (as it is by [to_pst], cut to its first five characters by
    [to_pst_time_only] when it is longer); a text that parses gives what
    the zone library gives, and is handed back in the same way when the
    library raises. The result is always a string. *)
Theorem conversions_fall_back (utc_time_str : string) :
  let cut :=
    if Nat.ltb 5 (String.length utc_time_str)
    then PyStr.take 5 utc_time_str else utc_time_str in
  (utc_time_str = "" \/ utc_time_str = "Unknown" ->
   to_pst la_strftime utc_time_str = "Unknown" /\
   to_pst_time_only la_strftime utc_time_str = "Unknown") /\
  (utc_time_str <> "" -> utc_time_str <> "Unknown" ->
   DateTime.strptime (PyStr.take 19 utc_time_str) = None ->
   to_pst la_strftime utc_time_str = utc_time_str /\
   to_pst_time_only la_strftime utc_time_str = cut) /\
  (forall utc_dt,
      utc_time_str <> "" -> utc_time_str <> "Unknown" ->
      DateTime.strptime (PyStr.take 19 utc_time_str) = Some utc_dt ->
      to_pst la_strftime utc_time_str =
      get_or (la_strftime "%Y-%m-%d %H:%M PST" utc_dt) utc_time_str /\
      to_pst_time_only la_strftime utc_time_str =
      get_or (la_strftime "%H:%M" utc_dt) cut).
Proof.
  intros cut. subst cut. unfold to_pst, to_pst_time_only, convert.
  split; [|split].
  - intros [->| ->]; split; reflexivity.
  - intros Hne Hun Hp. rewrite (truthy_nonempty _ Hne).
    apply String.eqb_neq in Hun. rewrite Hun, Hp. split; reflexivity.
  - intros dt Hne Hun Hp. rewrite (truthy_nonempty _ Hne).
    apply String.eqb_neq in Hun. rewrite Hun, Hp. cbn [negb orb].
    split; [now destruct (la_strftime "%Y-%m-%d %H:%M PST" dt)|].
    now destruct (la_strftime "%H:%M" dt).
Qed.

End Conversions.

(* ================================================================== *)
(** * The code at concrete inputs *)

Section Evaluations.
Import ZoomAPI AttendanceReporter TimeHelper Spec Samples.

(** The scenarios of the specification. *)

Example single_session_promoted :
  merged_record [alice_1] = Ok alice_1.
Proof. reflexivity. Qed.

Example end_to_end_alice :
  _deduplicate_participants alice_sessions =
  Ok [ {| name := Some "Alice"; user_email := Some "alice@co.com";
          join_time := Some "t1"; leave_time := Some "t4";
          duration := Some 900; status := Some "in_meeting" |} ].
Proof. reflexivity. Qed.

Example email_precedence_without_join_times :
  let s e := mkParticipant (Some "Dee") (Some e) None None None None in
  option_map user_email
    (match _combine_sessions [s ""; s "a@x.com"; s "N/A"; s "b@y.com"] with
     | Ok r => Some r
     | Raise _ => None
     end) = Some (Some "a@x.com").
Proof. reflexivity. Qed.

Example occurrence_789_kept_once :
  get_meeting_instances "123" [from_instances] [from_listing] midnight midnight
  = [from_listing].
Proof. reflexivity. Qed.

(** The library models at sample inputs. *)

Example strptime_provider_timestamp :
  DateTime.strptime (PyStr.take 19 "2024-01-15T18:00:00Z") =
  Some (DateTime.mk 2024 1 15 18 0 0 0).
Proof. reflexivity. Qed.

Example strptime_rejects_bad_day :
  DateTime.strptime "2024-02-30T10:30:00" = None.
Proof. reflexivity. Qed.

Example int_literals :
  map PyStr.int [" -1_000 "; "007"; "2 "; "1__0"; "+"; "5d"; ""] =
  [Some (-1000); Some 7; Some 2; None; None; None; None].
Proof. reflexivity. Qed.

Example parse_time_input_samples :
  map parse_time_input ["2h"; " 30M "; "3d"; ""; "soon"; "2 h"] =
  [Ok (TimeDelta.mk 0 7200); Ok (TimeDelta.mk 0 1800); Ok (TimeDelta.mk 3 0);
   Ok (TimeDelta.mk 1 0); Ok (TimeDelta.mk 1 0); Ok (TimeDelta.mk 0 7200)].
Proof. reflexivity. Qed.

(** Beyond the range of [timedelta] the constructor raises, and the
    handler of [ValueError] does not catch it. *)
Example parse_time_input_overflow :
  parse_time_input "9999999999d" = Raise OverflowError.
Proof. reflexivity. Qed.

(** C1 at the two sessions of Alice. *)
Lemma combine_sessions_join_and_leave_witness :
  (2 <= List.length alice_sessions)%nat /\
  exists r first last,
    _combine_sessions alice_sessions = Ok r /\
    In first alice_sessions /\
    join_time r = Some (join_key first) /\
    leave_time r = Some (leave_key last).
Proof.
  assert (H : (2 <= List.length alice_sessions)%nat) by (simpl; lia).
  split; [exact H|].
  destruct (combine_sessions_join_and_leave alice_sessions H)
    as (r & first & l3 & last & l4 & Hr & Hin & Hj & _ & _ & Hl & _).
  exists r, first, last. auto.
Defined.

(** C1 fails as stated: a short session inside a long one. The combined
    leave time is the short session's, which joined last, and the long
    session left later. *)
Lemma combined_leave_time_not_latest :
  exists r,
    _combine_sessions overlapping_sessions = Ok r /\
    leave_time r = Some "2024-01-15T18:10:00Z" /\
    In laptop overlapping_sessions /\
    leave_key laptop = "2024-01-15T19:00:00Z" /\
    str_lt "2024-01-15T18:10:00Z" "2024-01-15T19:00:00Z".
Proof.
  eexists. split; [reflexivity|]. split; [reflexivity|].
  split; [now left|]. split; reflexivity.
Qed.

(** C2 at the two sessions of Alice. *)
Lemma combine_sessions_best_email_witness :
  (2 <= List.length alice_sessions)%nat /\
  exists r, _combine_sessions alice_sessions = Ok r /\
            (StronglySorted join_le alice_sessions ->
             user_email r = Some (best_email_of alice_sessions)).
Proof.
  assert (H : (2 <= List.length alice_sessions)%nat) by (simpl; lia).
  split; [exact H|].
  destruct (combine_sessions_best_email alice_sessions H) as (r & Hr & _ & Hs).
  exists r. auto.
Defined.

(** C2 fails as stated: the session listed first has a usable email but
    joined later; the combined email is the one of the session that joined
    first. *)
Lemma combined_email_follows_join_order :
  exists r,
    _combine_sessions out_of_order_sessions = Ok r /\
    user_email r = Some "a@x.com" /\
    find usable_email out_of_order_sessions = Some listed_first /\
    user_email listed_first = Some "b@y.com".
Proof.
  eexists. split; [reflexivity|]. split; [reflexivity|]. split; reflexivity.
Qed.

(** C3 at the two sessions of Alice. *)
Lemma groups_by_identity_key_witness :
  In alice_1 alice_sessions /\ In alice_2 alice_sessions /\
  ((exists k g, In (k, g) (participant_groups_of alice_sessions) /\
                In alice_1 g /\ In alice_2 g)
   <-> identity_key alice_1 = identity_key alice_2).
Proof.
  assert (H1 : In alice_1 alice_sessions) by (left; reflexivity).
  assert (H2 : In alice_2 alice_sessions) by (right; left; reflexivity).
  split; [exact H1|]. split; [exact H2|].
  destruct groups_by_identity_key as (_ & Hgroups & _).
  destruct (Hgroups alice_sessions) as (_ & _ & Hiff).
  exact (Hiff alice_1 alice_2 H1 H2).
Defined.

(** C4 at the two sessions of Alice. *)
Lemma merged_duration_is_sum_witness :
  (1 <= List.length alice_sessions)%nat /\
  exists r, merged_record alice_sessions = Ok r /\
            get_or (duration r) 0 = sum_of_durations alice_sessions.
Proof.
  assert (H : (1 <= List.length alice_sessions)%nat) by (simpl; lia).
  split; [exact H|].
  destruct (merged_duration_is_sum alice_sessions H) as (r & Hr & Hsum & _).
  exists r. auto.
Defined.

(** C5 at a meeting without participants between two others. *)
Lemma empty_meeting_placeholder_witness :
  nobody (py_str (occurrence_id undated)) = [] /\
  exists rb nb ra na,
    report_of fixed_text nobody ([from_instances] ++ undated :: [from_listing])
    = Ok ((rb ++ [row_for fixed_text "" "No attendees"] ++ ra)%list,
          (nb ++ ["No attendees"] ++ na)%list).
Proof.
  assert (H : nobody (py_str (occurrence_id undated)) = []) by reflexivity.
  split; [exact H|].
  destruct (empty_meeting_placeholder fixed_text nobody
              [from_instances] [from_listing] undated H)
    as (rb & nb & ra & na & _ & _ & Hrep & _).
  exists rb, nb, ra, na. exact Hrep.
Defined.

(** C6 at the occurrence ["789"] reported by both requests. *)
Lemma occurrences_deduplicated_last_wins_witness :
  In from_listing (matching_user_meetings "123" [from_listing] midnight) /\
  enters_as midnight (IdStr "789") from_listing = true /\
  exists r,
    In r (get_meeting_instances "123" [from_instances] [from_listing]
            midnight midnight) /\
    occurrence_id r = Some (IdStr "789") /\
    In r (matching_user_meetings "123" [from_listing] midnight).
Proof.
  assert (H1 : In from_listing
                 (matching_user_meetings "123" [from_listing] midnight))
    by (left; reflexivity).
  assert (H2 : enters_as midnight (IdStr "789") from_listing = true)
    by reflexivity.
  split; [exact H1|]. split; [exact H2|].
  pose proof (occurrences_deduplicated_last_wins "123" [from_instances]
                [from_listing] midnight midnight) as H.
  cbv zeta in H. destruct H as (_ & _ & _ & Hlast & _).
  destruct (Hlast from_listing (IdStr "789") H1 H2)
    as (r & Hin & Hid & Hsec & _).
  exists r. auto.
Defined.

(** C6 fails as stated: both sources hold the occurrence ["789"], but the
    copy of the second source starts between the two cutoffs, so the last
    filter drops it and the copy of the first source is the one kept. *)
Lemma second_copy_dropped_by_later_cutoff :
  In from_listing
    (matching_user_meetings "123" [from_listing] TwoReadings.before_request) /\
  occurrence_id TwoReadings.started_later = Some (IdStr "789") /\
  occurrence_id from_listing = Some (IdStr "789") /\
  get_meeting_instances "123" [TwoReadings.started_later] [from_listing]
    TwoReadings.before_request TwoReadings.after_request
  = [TwoReadings.started_later] /\
  topic TwoReadings.started_later = Some "Standup (instances)" /\
  topic from_listing = Some "Standup (listing)".
Proof.
  split; [left; reflexivity|]. split; [reflexivity|]. split; [reflexivity|].
  split; [reflexivity|]. split; reflexivity.
Qed.

(** [int] does not skip the separators FS..US that [strip] removes: a
    number followed by one is no integer, and the input is one day. *)
Example int_keeps_separators :
  PyStr.int ("7" ++ unit_separator) = None /\
  PyStr.strip ("7" ++ unit_separator) = "7" /\
  parse_time_input ("7" ++ unit_separator ++ "d")
  = Ok (TimeDelta.mk 1 0).
Proof. repeat split. Qed.

(** C7 at ["2h"]. *)
Lemma parse_time_input_cases_witness :
  representable (2 * unit_seconds "h") /\
  exists td, parse_time_input "2h" = Ok td /\
             TimeDelta.total_seconds td = 2 * unit_seconds "h".
Proof.
  assert (Hr : representable (2 * unit_seconds "h"))
    by (unfold representable, TimeDelta.max_days; simpl; lia).
  split; [exact Hr|].
  pose proof (parse_time_input_cases "2h") as H.
  cbv zeta in H. destruct H as (_ & Hunit & _).
  exact (Hunit "2" "h"%char 2 eq_refl eq_refl eq_refl Hr).
Defined.

(** C7 fails as stated: ["3"] has no unit, and is three days, not one. *)
Lemma bare_integer_is_days :
  PyStr.last_char (PyStr.lower (PyStr.strip "3")) = Some "3"%char /\
  is_unit "3" = false /\
  parse_time_input "3" = Ok (TimeDelta.mk 3 0) /\
  TimeDelta.total_seconds (TimeDelta.mk 3 0) = 3 * 86400.
Proof. repeat split. Qed.

(** C8 at a text that is no timestamp. *)
Lemma conversions_fall_back_witness :
  "not a date" <> "" /\ "not a date" <> "Unknown" /\
  DateTime.strptime (PyStr.take 19 "not a date") = None /\
  to_pst fixed_text "not a date" = "not a date" /\
  to_pst_time_only fixed_text "not a date" = "not a".
Proof.
  assert (H1 : "not a date" <> "") by discriminate.
  assert (H2 : "not a date" <> "Unknown") by discriminate.
  assert (H3 : DateTime.strptime (PyStr.take 19 "not a date") = None)
    by reflexivity.
  split; [exact H1|]. split; [exact H2|]. split; [exact H3|].
  pose proof (conversions_fall_back fixed_text "not a date") as H.
  cbv zeta in H. destruct H as (_ & Hfall & _).
  exact (Hfall H1 H2 H3).
Defined.

(** C8 fails as stated: a text that does not parse is handed back, it is
    not replaced by ["Unknown"]. *)
Lemma unparseable_text_is_returned :
  DateTime.strptime (PyStr.take 19 "2024/01/15 18:00") = None /\
  to_pst fixed_text "2024/01/15 18:00" = "2024/01/15 18:00" /\
  to_pst_time_only fixed_text "2024/01/15 18:00" = "2024/" /\
  "2024/01/15 18:00" <> "Unknown" /\ "2024/" <> "Unknown".
Proof.
  split; [reflexivity|]. split; [reflexivity|]. split; [reflexivity|].
  split; discriminate.
Qed.

(** C9 at a meeting whose participants are the two sessions of Alice. *)
Lemma report_row_name_default_witness :
  (fun _ : string => alice_sessions) (py_str (occurrence_id undated)) <> [] /\
  exists out,
    meeting_step fixed_text (fun _ => alice_sessions) ([], []) undated =
    Ok (map (fun r => row_for fixed_text "" (shown_name r)) out,
        map shown_name out).
Proof.
  assert (H : (fun _ : string => alice_sessions)
                (py_str (occurrence_id undated)) <> []) by discriminate.
  split; [exact H|].
  destruct (report_row_name_default fixed_text (fun _ => alice_sessions)
              undated H) as (out & Hstep & _).
  exists out. exact (Hstep [] []).
Defined.

(** C9 fails as stated: a name that is present and empty is not
    defaulted; the row carries the empty string. *)
Lemma empty_name_is_kept :
  name unnamed = Some "" /\
  report_of fixed_text (fun _ => [unnamed]) [undated] =
  Ok ([ {| meeting_date := "Unknown"; meeting_time := "Unknown";
           participant_name := "" |} ], [""]).
Proof. split; reflexivity. Qed.

End Evaluations.

(* ================================================================== *)
(** * More about [_combine_sessions] and [_deduplicate_participants] *)

Section SortedUnique.
Context {A : Type}.
Variable key : A -> string.

Lemma key_injective_on (l : list A) (a b : A) :
  NoDup (map key l) -> In a l -> In b l -> key a = key b -> a = b.
Proof.
  induction l as [|x l IH]; simpl; intros Hnd Ha Hb E; [destruct Ha|].
  inversion Hnd as [|? ? Hx Hl]; subst.
  destruct Ha as [<-|Ha], Hb as [<-|Hb].
  - reflexivity.
  - exfalso. apply Hx. rewrite E. now apply in_map.
  - exfalso. apply Hx. rewrite <- E. now apply in_map.
  - now apply IH.
Qed.

(** Two orderings by key of the same elements are the same list when no
    two elements share a key. *)
Lemma sorted_by_key_unique (l l' : list A) :
  StronglySorted (fun a b => str_le (key a) (key b)) l ->
  StronglySorted (fun a b => str_le (key a) (key b)) l' ->
  Permutation l l' -> NoDup (map key l) -> l = l'.
Proof.
  revert l'. induction l as [|a t IH]; intros l' Hs Hs' Hp Hnd.
  - apply Permutation_nil in Hp. now subst.
  - destruct l' as [|b t'].
    { apply Permutation_sym, Permutation_nil in Hp. discriminate Hp. }
    apply StronglySorted_inv in Hs. destruct Hs as [Hst Ha].
    apply StronglySorted_inv in Hs'. destruct Hs' as [Hst' Hb].
    rewrite Forall_forall in Ha, Hb.
    assert (Hab : str_le (key a) (key b)).
    { assert (Hin : In b (a :: t))
        by (eapply Permutation_in; [symmetry; exact Hp|now left]).
      destruct Hin as [<-|Hin]; [apply str_le_refl|now apply Ha]. }
    assert (Hba : str_le (key b) (key a)).
    { assert (Hin : In a (b :: t'))
        by (eapply Permutation_in; [exact Hp|now left]).
      destruct Hin as [<-|Hin]; [apply str_le_refl|now apply Hb]. }
    assert (E : a = b).
    { apply (key_injective_on (a :: t)); [exact Hnd|now left| |].
      - eapply Permutation_in; [symmetry; exact Hp|now left].
      - now apply String.leb_antisym. }
    subst b. f_equal. apply IH; [exact Hst|exact Hst'| |].
    + eapply Permutation_cons_inv. exact Hp.
    + simpl in Hnd. now inversion Hnd.
Qed.

End SortedUnique.

Section DeduplicateMore.
Import AttendanceReporter Spec More.

Lemma sort_by_join_of_permutation (g g' : list Participant) :
  Permutation g g' -> NoDup (map join_key g) ->
  sort_by_join g = sort_by_join g'.
Proof.
  intros Hp Hnd.
  apply (sorted_by_key_unique join_key).
  - apply sort_by_join_sorted.
  - apply sort_by_join_sorted.
  - rewrite !sort_by_join_perm. exact Hp.
  - eapply Permutation_NoDup; [|exact Hnd].
    apply Permutation_map. symmetry. apply sort_by_join_perm.
Qed.

(** X1: when no two sessions of a group joined at the same time, the
    combined record does not depend on the order in which the provider
    listed the sessions. *)
Theorem combined_record_order_independent (g g' : list Participant) :
  Permutation g g' -> NoDup (map join_key g) ->
  _combine_sessions g = _combine_sessions g' /\
  merged_record g = merged_record g'.
Proof.
  intros Hp Hnd.
  assert (Hc : _combine_sessions g = _combine_sessions g').
  { unfold _combine_sessions.
    now rewrite (sort_by_join_of_permutation g g' Hp Hnd). }
  split; [exact Hc|].
  destruct g as [|s [|s' g0]].
  - apply Permutation_nil in Hp. now subst.
  - apply Permutation_length_1_inv in Hp. now subst.
  - unfold merged_record. rewrite <- (Permutation_length Hp). exact Hc.
Qed.

Lemma merged_record_duration (g : list Participant) (r : Participant) :
  merged_record g = Ok r -> get_or (duration r) 0 = sum_of_durations g.
Proof.
  destruct g as [|s [|s' g]].
  - discriminate.
  - intros [= <-]. simpl. lia.
  - rewrite merged_record_eq by discriminate.
    rewrite (_combine_sessions_eq _ s) by discriminate.
    pose proof (total_duration_of_sorted (s :: s' :: g)) as Hs.
    remember (sort_by_join (s :: s' :: g)) as sorted eqn:Esorted.
    intros [= <-]. cbn [duration get_or]. exact Hs.
Qed.

Lemma groups_values_by_key (ps : list Participant) :
  Dict.values (participant_groups_of ps) =
  map (fun k => sessions_of_key k ps) (Dict.keys (participant_groups_of ps)).
Proof.
  unfold Dict.values, Dict.keys. rewrite map_map.
  apply map_ext_in. intros [k g] Hin. simpl.
  apply participant_groups_of_spec in Hin. tauto.
Qed.

Lemma groups_keys_cover (ps : list Participant) (p : Participant) :
  In p ps -> In (identity_key p) (Dict.keys (participant_groups_of ps)).
Proof.
  intros Hp.
  apply (dict_in_keys (V:=list Participant))
    with (v := sessions_of_key (identity_key p) ps).
  apply participant_groups_of_spec. split; [|reflexivity].
  intros Hnil.
  assert (Hin : In p (sessions_of_key (identity_key p) ps))
    by (apply filter_In; split; [exact Hp|apply String.eqb_refl]).
  rewrite Hnil in Hin. destruct Hin.
Qed.

(** The step of [set_of], which is also how the keys of the grouping
    dictionary grow. *)
Lemma dict_keys_set_step {V : Type} (k : string) (v : V)
    (d : Dict.t (K:=string) (V:=V)) :
  Dict.keys (Dict.set String.eqb k v d) =
  if existsb (String.eqb k) (Dict.keys d) then Dict.keys d
  else (Dict.keys d ++ [k])%list.
Proof.
  induction d as [|[a b] d IH]; simpl; [reflexivity|].
  destruct (String.eqb k a) eqn:E; simpl; [reflexivity|].
  fold (Dict.keys (Dict.set String.eqb k v d)). fold (Dict.keys d).
  rewrite IH. now destruct (existsb (String.eqb k) (Dict.keys d)).
Qed.

Lemma existsb_keys_set {V : Type} (k : string) (v : V)
    (d : Dict.t (K:=string) (V:=V)) :
  existsb (String.eqb k) (Dict.keys (Dict.set String.eqb k v d)) = true.
Proof.
  apply existsb_exists. exists k. split; [|apply String.eqb_refl].
  apply (dict_keys_set _ String.eqb_spec). now left.
Qed.

Lemma group_step_keys (d : Groups) (p : Participant) :
  Dict.keys (group_step d p) =
  if existsb (String.eqb (identity_key p)) (Dict.keys d) then Dict.keys d
  else (Dict.keys d ++ [identity_key p])%list.
Proof.
  unfold group_step.
  destruct (Dict.get String.eqb (identity_key p) d).
  - apply dict_keys_set_step.
  - rewrite dict_keys_set_step, existsb_keys_set. apply dict_keys_set_step.
Qed.

(** The keys of the grouping dictionary are the distinct identity keys, in
    the order in which they are first met. *)
Lemma groups_keys_in_order (ps : list Participant) :
  Dict.keys (participant_groups_of ps) =
  distinct_in_order (map identity_key ps).
Proof.
  unfold distinct_in_order, EmailSender.set_of.
  induction ps as [|p ps IH] using rev_ind; [reflexivity|].
  rewrite participant_groups_of_snoc, group_step_keys, IH.
  rewrite map_app, fold_left_app. reflexivity.
Qed.

Lemma Forall2_map_left {X Y Z : Type} (f : X -> Y) (R : Y -> Z -> Prop)
    (l : list X) (l' : list Z) :
  Forall2 R (map f l) l' -> Forall2 (fun x z => R (f x) z) l l'.
Proof.
  revert l'. induction l as [|x l IH]; intros l' H; inversion H; subst;
    constructor; auto.
Qed.

Lemma set_of_length (l seen : list string) :
  (List.length seen <=
   List.length
     (fold_left
        (fun seen x =>
           if existsb (String.eqb x) seen then seen else (seen ++ [x])%list)
        l seen) <= List.length seen + List.length l)%nat.
Proof.
  revert seen. induction l as [|x l IH]; intros seen; simpl; [lia|].
  destruct (existsb (String.eqb x) seen).
  - specialize (IH seen). lia.
  - specialize (IH (seen ++ [x])%list). rewrite length_app in IH.
    simpl in IH. lia.
Qed.

(** What [_deduplicate_participants] returns, key by key. *)
Lemma _deduplicate_participants_by_key (ps : list Participant) :
  exists out,
    _deduplicate_participants ps = Ok out /\
    Forall2 (fun k r => merged_record (sessions_of_key k ps) = Ok r)
      (distinct_in_order (map identity_key ps)) out.
Proof.
  destruct (_deduplicate_participants_ok ps) as (out & Hout & Hall).
  exists out. split; [exact Hout|].
  rewrite groups_values_by_key, groups_keys_in_order in Hall.
  now apply Forall2_map_left in Hall.
Qed.

(** X2: [_deduplicate_participants] returns one record per distinct
    identity key, in the order in which the keys are first met in the
    input; the record of a key is the merge of all the sessions with that
    key. It never returns more records than it was given sessions, and
    returns none only for no sessions. *)
Theorem deduplicated_one_record_per_key (ps : list Participant) :
  exists out,
    _deduplicate_participants ps = Ok out /\
    Forall2 (fun k r => merged_record (sessions_of_key k ps) = Ok r)
      (distinct_in_order (map identity_key ps)) out /\
    NoDup (distinct_in_order (map identity_key ps)) /\
    (forall k, In k (distinct_in_order (map identity_key ps)) <->
               exists p, In p ps /\ identity_key p = k) /\
    (List.length out <= List.length ps)%nat /\
    (out = [] <-> ps = []).
Proof.
  destruct (_deduplicate_participants_by_key ps) as (out & Hout & Hall).
  exists out. split; [exact Hout|]. split; [exact Hall|].
  pose proof (Forall2_length Hall) as Hlen.
  rewrite <- groups_keys_in_order in *.
  split; [apply participant_groups_of_spec|]. split; [|split].
  - intros k. split.
    + intros Hk. unfold Dict.keys in Hk. apply in_map_iff in Hk.
      destruct Hk as ([k' g] & <- & Hin). simpl.
      apply participant_groups_of_spec in Hin. destruct Hin as [Hne ->].
      destruct (sessions_of_key k' ps) as [|p l] eqn:Es; [congruence|].
      assert (Hp : In p (sessions_of_key k' ps)) by (rewrite Es; now left).
      apply filter_In in Hp. destruct Hp as [Hp Hk].
      apply String.eqb_eq in Hk. eauto.
    + intros (p & Hp & <-). now apply groups_keys_cover.
  - rewrite <- Hlen, groups_keys_in_order.
    unfold distinct_in_order, EmailSender.set_of.
    pose proof (set_of_length (map identity_key ps) []) as H.
    rewrite length_map in H. simpl in H. lia.
  - split.
    + intros ->. simpl in Hlen.
      destruct ps as [|p ps]; [reflexivity|].
      pose proof (groups_keys_cover (p :: ps) p (or_introl eq_refl)) as Hin.
      destruct (Dict.keys (participant_groups_of (p :: ps)));
        [destruct Hin|discriminate Hlen].
    + intros ->. simpl in Hlen. now destruct out.
Qed.

End DeduplicateMore.

Section DeduplicateTotals.
Import AttendanceReporter Spec More.

Lemma sum_over_no_sessions (K : list string) :
  fold_right (fun k acc => sum_of_durations (sessions_of_key k []) + acc) 0 K = 0.
Proof. induction K as [|k K IH]; simpl; [reflexivity|exact IH]. Qed.

(** Adding a session adds its duration to the group of its key and to no
    other. *)
Lemma sum_over_keys_cons (K : list string) (p : Participant)
    (ps : list Participant) :
  NoDup K ->
  fold_right (fun k acc => sum_of_durations (sessions_of_key k (p :: ps)) + acc)
    0 K =
  (if existsb (String.eqb (identity_key p)) K
   then get_or (duration p) 0 else 0) +
  fold_right (fun k acc => sum_of_durations (sessions_of_key k ps) + acc) 0 K.
Proof.
  induction 1 as [|k K Hk Hnd IH]; [reflexivity|].
  cbn [fold_right existsb]. rewrite IH.
  unfold sessions_of_key at 1. cbn [filter].
  fold (sessions_of_key k ps).
  destruct (String.eqb_spec (identity_key p) k) as [E|E]; cbn [orb].
  - assert (Hno : existsb (String.eqb (identity_key p)) K = false).
    { apply not_true_iff_false. intros Hex.
      apply existsb_exists in Hex. destruct Hex as (k' & Hin & Ek').
      apply String.eqb_eq in Ek'. apply Hk. congruence. }
    rewrite Hno. simpl. lia.
  - lia.
Qed.

Lemma sum_over_keys (K : list string) (ps : list Participant) :
  NoDup K -> (forall p, In p ps -> In (identity_key p) K) ->
  fold_right (fun k acc => sum_of_durations (sessions_of_key k ps) + acc) 0 K =
  sum_of_durations ps.
Proof.
  intros Hnd. induction ps as [|p ps IH]; intros Hcover.
  - apply sum_over_no_sessions.
  - rewrite sum_over_keys_cons by exact Hnd.
    rewrite IH by (intros q Hq; apply Hcover; now right).
    assert (Hin : existsb (String.eqb (identity_key p)) K = true).
    { apply existsb_exists. exists (identity_key p).
      split; [apply Hcover; now left|apply String.eqb_refl]. }
    rewrite Hin. reflexivity.
Qed.

Lemma merged_durations_total (K : list string) (ps out : list Participant) :
  Forall2 (fun k r => merged_record (sessions_of_key k ps) = Ok r) K out ->
  durations out =
  fold_right (fun k acc => sum_of_durations (sessions_of_key k ps) + acc) 0 K.
Proof.
  induction 1 as [|k r K out Hr Hall IH]; [reflexivity|].
  unfold durations in *. simpl. rewrite IH.
  now rewrite (merged_record_duration _ _ Hr).
Qed.

(** X3: deduplication loses and invents no attendance time: the durations
    of the records it returns add up to the durations of the sessions it
    was given (an absent duration counting 0). *)
Theorem deduplication_conserves_duration (ps : list Participant) :
  exists out,
    _deduplicate_participants ps = Ok out /\ durations out = durations ps.
Proof.
  destruct (_deduplicate_participants_by_key ps) as (out & Hout & Hall).
  exists out. split; [exact Hout|].
  rewrite (merged_durations_total _ _ _ Hall).
  apply sum_over_keys.
  - rewrite <- groups_keys_in_order. apply participant_groups_of_spec.
  - intros p Hp. rewrite <- groups_keys_in_order.
    now apply groups_keys_cover.
Qed.

Lemma distinct_in_order_nodup (l : list string) :
  NoDup l -> distinct_in_order l = l.
Proof.
  unfold distinct_in_order, EmailSender.set_of.
  induction l as [|x l IH] using rev_ind; [reflexivity|].
  intros Hnd. rewrite fold_left_app. cbn [fold_left].
  apply NoDup_remove in Hnd. rewrite app_nil_r in Hnd.
  destruct Hnd as [Hl Hx]. rewrite (IH Hl).
  destruct (existsb (String.eqb x) l) eqn:E; [|reflexivity].
  apply existsb_exists in E. destruct E as (y & Hy & Exy).
  apply String.eqb_eq in Exy. subst y. contradiction.
Qed.

Lemma filter_nothing {A : Type} (f : A -> bool) (l : list A) :
  (forall x, In x l -> f x = false) -> filter f l = [].
Proof.
  induction l as [|x l IH]; intros H; [reflexivity|].
  simpl. rewrite (H x) by now left. apply IH. intros y Hy. apply H. now right.
Qed.

Lemma sessions_of_own_key (ps : list Participant) (p : Participant) :
  NoDup (map identity_key ps) -> In p ps ->
  sessions_of_key (identity_key p) ps = [p].
Proof.
  unfold sessions_of_key.
  induction ps as [|q ps IH]; intros Hnd Hp; [destruct Hp|].
  simpl in Hnd. inversion Hnd as [|? ? Hq Hps]; subst. cbn [filter].
  destruct Hp as [->|Hp].
  - rewrite String.eqb_refl. f_equal.
    apply filter_nothing. intros x Hx.
    apply String.eqb_neq. intros Ex. apply Hq. rewrite <- Ex.
    now apply in_map.
  - destruct (String.eqb_spec (identity_key q) (identity_key p)) as [E|E].
    + exfalso. apply Hq. rewrite E. now apply in_map.
    + now apply IH.
Qed.

Lemma merged_singletons (ps l out : list Participant) :
  (forall p, In p l -> sessions_of_key (identity_key p) ps = [p]) ->
  Forall2 (fun k r => merged_record (sessions_of_key k ps) = Ok r)
    (map identity_key l) out ->
  out = l.
Proof.
  revert out. induction l as [|p l IH]; intros out Hone Hall;
    inversion Hall as [|k r K out' Hr Hrest]; subst; [reflexivity|].
  rewrite (Hone p) in Hr by now left. injection Hr as <-.
  f_equal. apply IH; [|exact Hrest]. intros q Hq. apply Hone. now right.
Qed.

(** X4: participants that all have different identity keys are returned as
    they came: same records, same order, nothing merged. *)
Theorem distinct_participants_unchanged (ps : list Participant) :
  NoDup (map identity_key ps) -> _deduplicate_participants ps = Ok ps.
Proof.
  intros Hnd.
  destruct (_deduplicate_participants_by_key ps) as (out & Hout & Hall).
  rewrite Hout. f_equal.
  rewrite (distinct_in_order_nodup _ Hnd) in Hall.
  apply (merged_singletons ps); [|exact Hall].
  intros p Hp. now apply sessions_of_own_key.
Qed.

Lemma deduplicated_nonempty (ps : list Participant) :
  ps <> [] ->
  exists r out, _deduplicate_participants ps = Ok (r :: out).
Proof.
  intros Hne.
  destruct (_deduplicate_participants_by_key ps) as (out & Hout & Hall).
  destruct out as [|r out]; [|eauto].
  exfalso. apply Forall2_length in Hall. simpl in Hall.
  destruct ps as [|p ps]; [congruence|].
  pose proof (groups_keys_cover (p :: ps) p (or_introl eq_refl)) as Hin.
  rewrite groups_keys_in_order in Hin.
  destruct (distinct_in_order (map identity_key (p :: ps)));
    [destruct Hin|discriminate Hall].
Qed.

End DeduplicateTotals.

(* ================================================================== *)
(** * More about [generate_report] and the meeting listings *)

Section ReportMore.
Import ZoomAPI AttendanceReporter Spec More.

Variable la_strftime : string -> DateTime.t -> option string.
Variable get_participants : string -> list Participant.

(** Every meeting adds at least one row. *)
Lemma meeting_step_adds_rows (m : Meeting) :
  exists new_rows new_names,
    (forall rows names,
        meeting_step la_strftime get_participants (rows, names) m =
        Ok ((rows ++ new_rows)%list, (names ++ new_names)%list)) /\
    new_rows <> [].
Proof.
  destruct (get_participants (py_str (occurrence_id m))) as [|p ps] eqn:Ep.
  - exists [row_for la_strftime (get_or (start_time m) "") "No attendees"],
      ["No attendees"].
    split; [|discriminate].
    intros rows names. unfold meeting_step. now rewrite Ep.
  - destruct (deduplicated_nonempty (p :: ps)) as (r & out & Hout);
      [discriminate|].
    exists (map (fun x => row_for la_strftime (get_or (start_time m) "")
                            (shown_name x)) (r :: out)),
      (map shown_name (r :: out)).
    split; [|discriminate].
    intros rows names. unfold meeting_step.
    rewrite Ep, Hout. cbn [bind]. now rewrite participant_loop.
Qed.

Lemma meetings_loop_rows (ms : list Meeting) :
  exists new_rows new_names,
    (forall rows names,
        foldM (meeting_step la_strftime get_participants) ms (rows, names) =
        Ok ((rows ++ new_rows)%list, (names ++ new_names)%list)) /\
    (List.length ms <= List.length new_rows)%nat.
Proof.
  induction ms as [|m ms (rs & ns & Hloop & Hlen)].
  - exists [], []. split; [|simpl; lia].
    intros rows names. simpl. now rewrite !app_nil_r.
  - destruct (meeting_step_adds_rows m) as (r1 & n1 & Hstep & Hne).
    exists (r1 ++ rs)%list, (n1 ++ ns)%list. split.
    + intros rows names. cbn [foldM]. rewrite Hstep. cbn [bind].
      rewrite Hloop, <- !app_assoc. reflexivity.
    + rewrite length_app. destruct r1; [congruence|]. simpl. lia.
Qed.

(** X5: the report has at least one row for every meeting, so it is empty
    exactly when there is no meeting to report on. *)
Theorem report_rows_cover_meetings (ms : list Meeting) :
  exists rows names,
    report_of la_strftime get_participants ms = Ok (rows, names) /\
    (List.length ms <= List.length rows)%nat /\
    (rows = [] <-> ms = []).
Proof.
  destruct (meetings_loop_rows ms) as (rs & ns & Hloop & Hlen).
  exists rs, ns. rewrite report_of_loop, Hloop.
  split; [reflexivity|]. split; [exact Hlen|].
  split.
  - intros ->. destruct ms; [reflexivity|simpl in Hlen; lia].
  - intros ->. specialize (Hloop [] []). simpl in Hloop.
    injection Hloop as <- _. reflexivity.
Qed.

End ReportMore.

Section ListingsMore.
Import ZoomAPI Spec More.

(** X6: every occurrence [get_meeting_instances] returns comes from one of
    the two requests, starts at or after the cutoff and has a non-empty
    identifier: an occurrence without identifier, without a readable start
    time or from before the window is never returned. *)
Theorem returned_instances_are_in_window (meeting_id : string)
    (past_instances all_meetings : list Meeting)
    (cutoff_user cutoff_time : DateTime.t) (r : Meeting) :
  In r (get_meeting_instances meeting_id past_instances all_meetings
          cutoff_user cutoff_time) ->
  (In r past_instances \/
   In r (matching_user_meetings meeting_id all_meetings cutoff_user)) /\
  started_since cutoff_time r = true /\
  truthy (occurrence_id r) = true.
Proof.
  rewrite instances_of_both_sources. unfold Dict.values.
  rewrite in_map_iff. intros ([k v] & <- & Hin). simpl.
  apply unique_instances_spec in Hin.
  apply last_entering_in in Hin. destruct Hin as (Hl & Hs & Hid & Ht).
  split; [now apply in_app_or|]. split; [exact Hs|]. now rewrite Hid.
Qed.

Lemma lex_leb_trans (a b c : list Z) :
  DateTime.lex_leb a b = true -> DateTime.lex_leb b c = true ->
  DateTime.lex_leb a c = true.
Proof.
  revert b c. induction a as [|x a IH]; intros [|y b] [|z c]; simpl;
    try congruence.
  destruct (Z.ltb_spec x y), (Z.ltb_spec y x), (Z.ltb_spec y z),
    (Z.ltb_spec z y), (Z.ltb_spec x z), (Z.ltb_spec z x);
    try congruence; try lia.
  apply IH.
Qed.

Lemma started_since_earlier (c1 c2 : DateTime.t) (m : Meeting) :
  DateTime.leb c1 c2 = true ->
  started_since c2 m = true -> started_since c1 m = true.
Proof.
  unfold started_since, DateTime.leb. intros Hc.
  destruct (negb (PyStr.truthy (get_or (start_time m) ""))); [congruence|].
  destruct (DateTime.strptime (PyStr.take 19 (get_or (start_time m) "")));
    [|congruence].
  apply lex_leb_trans. exact Hc.
Qed.

Lemma filter_of_filter {A : Type} (f g : A -> bool) (l : list A) :
  (forall x, g x = true -> f x = true) ->
  filter g (filter f l) = filter g l.
Proof.
  intros Hfg. induction l as [|x l IH]; [reflexivity|]. simpl.
  destruct (f x) eqn:Ef; simpl; rewrite IH; [reflexivity|].
  destruct (g x) eqn:Eg; [|reflexivity].
  rewrite (Hfg x Eg) in Ef. discriminate Ef.
Qed.

(** X7: listing with an earlier cutoff and then with a later one gives
    what listing with the later cutoff gives at once; so a longer lookback
    never loses a meeting that a shorter one reports. *)
Theorem get_meetings_narrows (all_meetings : list Meeting)
    (c1 c2 : DateTime.t) :
  DateTime.leb c1 c2 = true ->
  get_meetings (get_meetings all_meetings c1) c2 = get_meetings all_meetings c2 /\
  forall m, In m (get_meetings all_meetings c2) ->
            In m (get_meetings all_meetings c1).
Proof.
  intros Hc. rewrite !get_meetings_filter. split.
  - apply filter_of_filter. intros m. now apply started_since_earlier.
  - intros m Hm. apply filter_In in Hm. destruct Hm as [Hin Hs].
    apply filter_In. split; [exact Hin|].
    now apply (started_since_earlier c1 c2).
Qed.

End ListingsMore.

Section TimeHelperMore.
Import TimeHelper Spec More.

Lemma make_outcome (d h m : Z) :
  (exists td, TimeDelta.make d h m = Ok td /\
              0 <= TimeDelta.seconds td < 86400 /\
              Z.abs (TimeDelta.days td) <= TimeDelta.max_days) \/
  TimeDelta.make d h m = Raise OverflowError.
Proof.
  unfold TimeDelta.make.
  destruct (Z.leb_spec (Z.abs ((d * 86400 + h * 3600 + m * 60) / 86400))
              TimeDelta.max_days) as [Hle|Hgt]; [left|now right].
  eexists. split; [reflexivity|]. simpl. split; [|exact Hle].
  apply Z.mod_pos_bound. lia.
Qed.

(** X8: [parse_time_input] either returns a normalised duration (seconds
    within a day, at most 999999999 days in magnitude) or raises
    [OverflowError]; no input makes it raise anything else. *)
Theorem parse_time_input_outcome (time_input : string) :
  (exists td, parse_time_input time_input = Ok td /\
              0 <= TimeDelta.seconds td < 86400 /\
              Z.abs (TimeDelta.days td) <= TimeDelta.max_days) \/
  parse_time_input time_input = Raise OverflowError.
Proof.
  unfold parse_time_input.
  set (t := PyStr.lower (PyStr.strip time_input)).
  destruct (PyStr.truthy t) eqn:Et; cbn [negb]; [|apply make_outcome].
  destruct (PyStr.last_char t) as [u|] eqn:El.
  - assert (Hdays : (exists td, as_days t = Ok td /\
                       0 <= TimeDelta.seconds td < 86400 /\
                       Z.abs (TimeDelta.days td) <= TimeDelta.max_days) \/
                    as_days t = Raise OverflowError).
    { unfold as_days. destruct (PyStr.int t); apply make_outcome. }
    destruct (is_unit u); [|exact Hdays].
    unfold with_unit. destruct (PyStr.int (PyStr.but_last t)); [|exact Hdays].
    destruct (Ascii.eqb u "h"); [apply make_outcome|].
    destruct (Ascii.eqb u "m"); [apply make_outcome|].
    destruct (Ascii.eqb u "d"); [apply make_outcome|exact Hdays].
  - apply last_char_none in El. rewrite El in Et. discriminate Et.
Qed.

Lemma length_take (n : nat) (s : string) :
  (String.length (PyStr.take n s) <= n)%nat.
Proof.
  unfold PyStr.take. revert s. induction n as [|n IH]; intros s.
  - destruct s; simpl; lia.
  - destruct s as [|c s]; simpl; [lia|]. specialize (IH s). lia.
Qed.

(** X9: in every row the date column holds at most ten characters, and a
    meeting without start time gets ["Unknown"] in both columns; when the
    start time cannot be converted, the time column holds at most five
    characters of it. *)
Theorem row_columns_bounded
    (la_strftime : string -> DateTime.t -> option string)
    (start_time participant_name : string) :
  let row := AttendanceReporter.row_for la_strftime start_time participant_name in
  (String.length (AttendanceReporter.meeting_date row) <= 10)%nat /\
  (start_time = "" ->
   AttendanceReporter.meeting_date row = "Unknown" /\
   AttendanceReporter.meeting_time row = "Unknown") /\
  (start_time <> "" -> start_time <> "Unknown" ->
   convert la_strftime "%H:%M" start_time = None ->
   (String.length (AttendanceReporter.meeting_time row) <= 5)%nat /\
   AttendanceReporter.meeting_time row = PyStr.take 5 start_time).
Proof.
  cbv zeta. unfold AttendanceReporter.row_for.
  cbn [AttendanceReporter.meeting_date AttendanceReporter.meeting_time].
  split; [|split].
  - destruct (PyStr.truthy start_time); [apply length_take|simpl; lia].
  - intros ->. split; reflexivity.
  - intros Hne Hun Hconv. unfold to_pst_time_only.
    rewrite (truthy_nonempty _ Hne). apply String.eqb_neq in Hun.
    rewrite Hun, Hconv. cbn [negb orb].
    destruct (Nat.ltb_spec 5 (String.length start_time)) as [Hlt|Hge].
    + split; [apply length_take|reflexivity].
    + assert (Hid : PyStr.take 5 start_time = start_time).
      { clear - Hge. unfold PyStr.take.
        remember 5%nat as n eqn:En. clear En. revert n Hge.
        induction start_time as [|c s IH]; intros n Hge.
        - now destruct n.
        - destruct n as [|n]; simpl in *; [lia|].
          f_equal. apply IH. lia. }
      rewrite Hid. split; [exact Hge|reflexivity].
Qed.

End TimeHelperMore.

(* ================================================================== *)
(** * The participant list of the message *)

Section ParticipantList.
Import EmailSender More.

Lemma insert_name_perm (x : string) (l : list string) :
  Permutation (insert_name x l) (x :: l).
Proof.
  induction l as [|y l IH]; simpl; [reflexivity|].
  destruct (String.leb x y); [reflexivity|].
  rewrite IH. apply perm_swap.
Qed.

Lemma sorted_names_perm (l : list string) : Permutation (sorted_names l) l.
Proof.
  induction l as [|x l IH]; simpl; [reflexivity|].
  rewrite insert_name_perm. now constructor.
Qed.

Lemma insert_name_sorted (x : string) (l : list string) :
  StronglySorted str_le l -> StronglySorted str_le (insert_name x l).
Proof.
  induction 1 as [|y l Hs IH Hy]; simpl.
  - repeat constructor.
  - destruct (String.leb x y) eqn:E.
    + constructor; [now constructor|].
      constructor; [exact E|].
      eapply Forall_impl; [|exact Hy].
      intros z Hz. eapply str_le_trans; [exact E|exact Hz].
    + constructor; [exact IH|].
      rewrite Forall_forall. intros z Hz.
      apply (Permutation_in _ (insert_name_perm x l)) in Hz.
      destruct Hz as [<-|Hz].
      * apply str_lt_le. exact E.
      * rewrite Forall_forall in Hy. now apply Hy.
Qed.

Lemma sorted_names_sorted (l : list string) :
  StronglySorted str_le (sorted_names l).
Proof.
  induction l as [|x l IH]; simpl; [constructor|].
  now apply insert_name_sorted.
Qed.

Lemma set_of_from (l seen : list string) :
  NoDup seen ->
  NoDup (fold_left
           (fun seen x =>
              if existsb (String.eqb x) seen then seen else (seen ++ [x])%list)
           l seen) /\
  forall x,
    In x (fold_left
            (fun seen x =>
               if existsb (String.eqb x) seen then seen else (seen ++ [x])%list)
            l seen) <-> In x seen \/ In x l.
Proof.
  revert seen. induction l as [|y l IH]; intros seen Hnd; simpl.
  - split; [exact Hnd|]. intros x. tauto.
  - destruct (existsb (String.eqb y) seen) eqn:E.
    + destruct (IH seen Hnd) as [H1 H2]. split; [exact H1|].
      intros x. rewrite H2.
      apply existsb_exists in E. destruct E as (z & Hz & Eyz).
      apply String.eqb_eq in Eyz. subst z.
      split; [tauto|]. intros [H|[<-|H]]; auto.
    + assert (Hy : ~ In y seen).
      { intros Hin. apply not_true_iff_false in E. apply E.
        apply existsb_exists. exists y. split; [exact Hin|apply String.eqb_refl]. }
      destruct (IH (seen ++ [y])%list) as [H1 H2].
      { apply NoDup_app; [exact Hnd|repeat constructor; intros []|].
        intros z Hz [<-|[]]. contradiction. }
      split; [exact H1|]. intros x. rewrite H2, in_app_iff. simpl. tauto.
Qed.

Lemma set_of_enumerates (participants : list string) :
  enumerates participants (set_of participants).
Proof.
  destruct (set_of_from participants [] (NoDup_nil _)) as [H1 H2].
  split; [exact H1|]. intros x. unfold set_of. rewrite H2. simpl. tauto.
Qed.

Lemma sorted_names_of_enumeration (participants u : list string) :
  enumerates participants u ->
  sorted_names u = sorted_names (set_of participants).
Proof.
  intros [Hnd Hin]. destruct (set_of_enumerates participants) as [Hnd' Hin'].
  apply (sorted_by_key_unique (fun x => x)).
  - apply sorted_names_sorted.
  - apply sorted_names_sorted.
  - rewrite !sorted_names_perm.
    apply NoDup_Permutation; [exact Hnd|exact Hnd'|].
    intros x. now rewrite Hin, Hin'.
  - rewrite map_id. eapply Permutation_NoDup; [|exact Hnd].
    symmetry. apply sorted_names_perm.
Qed.

Lemma strictly_sorted (l : list string) :
  StronglySorted str_le l -> NoDup l -> StronglySorted str_lt l.
Proof.
  induction 1 as [|x l Hs IH Hx]; intros Hnd; constructor.
  - apply IH. now inversion Hnd.
  - inversion Hnd as [|? ? Hnx _]; subst.
    rewrite Forall_forall in *. intros y Hy. specialize (Hx y Hy).
    unfold str_lt. destruct (String.leb y x) eqn:E; [|reflexivity].
    exfalso. apply Hnx.
    rewrite (String.leb_antisym x y Hx E). exact Hy.
Qed.

(** X10: the names listed in the body of the message are the names of the
    report, each once, in strictly ascending order of their code points;
    without any name the body says ["No participants found"], otherwise it
    holds the names one per line. *)
Theorem participant_list_sorted_unique (participants : list string) :
  let listed := sorted_names (set_of participants) in
  StronglySorted str_lt listed /\
  (forall x, In x listed <-> In x participants) /\
  (participants = [] -> participant_list participants = "No participants found") /\
  (participants <> [] ->
   participant_list participants = String.concat newline listed).
Proof.
  intros listed. subst listed.
  destruct (set_of_enumerates participants) as [Hnd Hin].
  assert (Hin' : forall x, In x (sorted_names (set_of participants)) <->
                           In x participants).
  { intros x. rewrite <- Hin. split; apply Permutation_in;
      [apply sorted_names_perm|symmetry; apply sorted_names_perm]. }
  split; [|split; [exact Hin'|split]].
  - apply strictly_sorted; [apply sorted_names_sorted|].
    eapply Permutation_NoDup; [|exact Hnd]. symmetry. apply sorted_names_perm.
  - intros ->. reflexivity.
  - intros Hne. unfold participant_list, participant_list_from.
    destruct (sorted_names (set_of participants)) as [|x l] eqn:E;
      [|reflexivity].
    destruct participants as [|p ps]; [congruence|].
    exfalso. apply (Hin' p). now left.
Qed.

(** X11: the list of the body depends only on which names occur: it is the
    same for every order in which the set of names is enumerated, and for
    every list of names with the same elements, repeated or not. *)
Theorem participant_list_of_set (participants : list string) :
  (forall u, enumerates participants u ->
             participant_list_from u = participant_list participants) /\
  (forall others, (forall x, In x others <-> In x participants) ->
                  participant_list others = participant_list participants).
Proof.
  split.
  - intros u Hu. unfold participant_list, participant_list_from.
    now rewrite (sorted_names_of_enumeration participants u Hu).
  - intros others Hsame. unfold participant_list, participant_list_from.
    rewrite (sorted_names_of_enumeration participants (set_of others));
      [reflexivity|].
    destruct (set_of_enumerates others) as [Hnd Hin].
    split; [exact Hnd|]. intros x. now rewrite Hin, Hsame.
Qed.

End ParticipantList.

(* ================================================================== *)
(** * [get_config] and the reader of [.env] *)

Section Stripping.
Import More.

Lemma lstrip_lead_ok (s : string) : lead_ok (PyStr.lstrip s).
Proof.
  induction s as [|c s IH]; simpl; [exact I|].
  destruct (PyStr.is_space c) eqn:E; [exact IH|exact E].
Qed.

Lemma lstrip_fixed (s : string) : lead_ok s -> PyStr.lstrip s = s.
Proof. destruct s as [|c s]; simpl; [reflexivity|]. now intros ->. Qed.

Lemma rstrip_lead_ok (s : string) : lead_ok s -> lead_ok (PyStr.rstrip s).
Proof.
  destruct s as [|c s]; simpl; [auto|]. intros Hc.
  destruct (PyStr.rstrip s); [now rewrite Hc|exact Hc].
Qed.

Lemma rstrip_idempotent (s : string) :
  PyStr.rstrip (PyStr.rstrip s) = PyStr.rstrip s.
Proof.
  induction s as [|c s IH]; [reflexivity|].
  cbn [PyStr.rstrip].
  destruct (PyStr.rstrip s) as [|a r] eqn:E.
  - destruct (PyStr.is_space c) eqn:Ec; [reflexivity|].
    simpl. now rewrite Ec.
  - cbn [PyStr.rstrip]. cbn [PyStr.rstrip] in IH.
    destruct (match PyStr.rstrip r with
              | EmptyString =>
                  if PyStr.is_space a then EmptyString else String a EmptyString
              | String a0 r0 => String a (String a0 r0)
              end) as [|a' r'] eqn:E'; [discriminate IH|].
    now rewrite IH.
Qed.

Lemma strip_lead_ok (s : string) : lead_ok (PyStr.strip s).
Proof. apply rstrip_lead_ok, lstrip_lead_ok. Qed.

Lemma strip_idempotent (s : string) :
  PyStr.strip (PyStr.strip s) = PyStr.strip s.
Proof.
  unfold PyStr.strip at 1.
  rewrite (lstrip_fixed _ (strip_lead_ok s)).
  unfold PyStr.strip. apply rstrip_idempotent.
Qed.

Lemma strip_fixed_parts (s : string) :
  PyStr.strip s = s -> PyStr.lstrip s = s /\ PyStr.rstrip s = s.
Proof.
  intros H.
  assert (Hl : PyStr.lstrip s = s)
    by (apply lstrip_fixed; rewrite <- H; apply strip_lead_ok).
  split; [exact Hl|]. unfold PyStr.strip in H. now rewrite Hl in H.
Qed.

Lemma lstrip_chars (s : string) (c : ascii) :
  In c (chars (PyStr.lstrip s)) -> In c (chars s).
Proof.
  induction s as [|a s IH]; simpl; [auto|].
  destruct (PyStr.is_space a); [|auto]. intros H. right. now apply IH.
Qed.

Lemma rstrip_chars (s : string) (c : ascii) :
  In c (chars (PyStr.rstrip s)) -> In c (chars s).
Proof.
  induction s as [|a s IH]; [auto|]. cbn [PyStr.rstrip].
  destruct (PyStr.rstrip s) as [|b r].
  - destruct (PyStr.is_space a); simpl; [intros []|].
    intros [H|[]]. now left.
  - intros [H|H]; [now left|]. right. now apply IH.
Qed.

Lemma strip_chars (s : string) (c : ascii) :
  In c (chars (PyStr.strip s)) -> In c (chars s).
Proof. intros H. now apply lstrip_chars, rstrip_chars. Qed.

Lemma rstrip_cons_fixed (c : ascii) (t : string) :
  PyStr.rstrip t = t -> t <> "" -> PyStr.rstrip (String c t) = String c t.
Proof.
  intros Ht Hne. cbn [PyStr.rstrip]. rewrite Ht.
  destruct t; [congruence|reflexivity].
Qed.

Lemma rstrip_app_fixed (a t : string) :
  PyStr.rstrip t = t -> t <> "" -> PyStr.rstrip (a ++ t) = (a ++ t)%string.
Proof.
  intros Ht Hne. induction a as [|c a IH]; [exact Ht|].
  simpl. apply rstrip_cons_fixed; [exact IH|].
  destruct a; [exact Hne|discriminate].
Qed.

Lemma rstrip_newline (s : string) :
  PyStr.rstrip (s ++ EmailSender.newline) = PyStr.rstrip s.
Proof.
  induction s as [|c s IH]; [reflexivity|].
  simpl. simpl in IH. now rewrite IH.
Qed.

Lemma lstrip_app_fixed (k r : string) :
  k <> "" -> lead_ok k -> PyStr.lstrip (k ++ r) = (k ++ r)%string.
Proof.
  destruct k as [|c k]; [congruence|]. intros _ Hc. simpl in *.
  now rewrite Hc.
Qed.

End Stripping.

Section ConfigFacts.
Import Config More.

Lemma split_on_nonempty (sep : ascii) (s : string) : split_on sep s <> [].
Proof.
  destruct s as [|c s]; simpl; [discriminate|].
  destruct (Ascii.eqb c sep); [discriminate|].
  destruct (split_on sep s); discriminate.
Qed.

Lemma split_on_parts (sep : ascii) (s part : string) :
  In part (split_on sep s) -> ~ In sep (chars part).
Proof.
  revert part. induction s as [|c s IH]; intros part; simpl.
  - intros [<-|[]] [].
  - destruct (Ascii.eqb_spec c sep) as [->|Hne].
    + intros [<-|H]; [intros []|now apply IH].
    + destruct (split_on sep s) as [|p ps] eqn:E.
      * intros [<-|[]] [H|[]]. congruence.
      * intros [<-|H].
        -- intros [H|H]; [congruence|]. apply (IH p); [now left|exact H].
        -- apply IH. now right.
Qed.

Lemma split_on_whole (sep : ascii) (a : string) :
  ~ In sep (chars a) -> split_on sep a = [a].
Proof.
  induction a as [|c a IH]; [reflexivity|]. simpl. intros Hno.
  destruct (Ascii.eqb_spec c sep) as [->|Hne]; [exfalso; apply Hno; now left|].
  rewrite IH; [reflexivity|]. intros H. apply Hno. now right.
Qed.

Lemma split_on_app (sep : ascii) (a rest : string) :
  ~ In sep (chars a) ->
  split_on sep (a ++ String sep rest) = a :: split_on sep rest.
Proof.
  induction a as [|c a IH]; simpl; intros Hno.
  - now rewrite Ascii.eqb_refl.
  - destruct (Ascii.eqb_spec c sep) as [->|Hne];
      [exfalso; apply Hno; now left|].
    rewrite IH; [reflexivity|]. intros H. apply Hno. now right.
Qed.

Lemma split_of_concat (l : list string) :
  l <> [] -> Forall (fun x => ~ In ","%char (chars x)) l ->
  split_on "," (String.concat "," l) = l.
Proof.
  induction l as [|x l IH]; [congruence|]. intros _ Hall.
  inversion Hall as [|? ? Hx Hl]; subst.
  destruct l as [|y l].
  - simpl. now apply split_on_whole.
  - change (String.concat "," (x :: y :: l))
      with (x ++ String "," (String.concat "," (y :: l)))%string.
    rewrite split_on_app by exact Hx.
    f_equal. apply IH; [discriminate|exact Hl].
Qed.

(** X12: every configured recipient is a clean address: not empty, without
    surrounding whitespace, without a comma; blank entries between commas
    are dropped. *)
Theorem recipients_are_clean (value r : string) :
  In r (recipients_of value) -> clean_address r.
Proof.
  unfold recipients_of. rewrite in_map_iff.
  intros (x & <- & Hx). apply filter_In in Hx. destruct Hx as [Hx Ht].
  split; [|split].
  - intros E. rewrite E in Ht. discriminate Ht.
  - apply strip_idempotent.
  - intros Hc. apply strip_chars in Hc.
    exact (split_on_parts _ _ _ Hx Hc).
Qed.

(** X13: clean addresses written with commas between them are read back
    as they were written, in the same order; the empty setting gives no
    recipient. *)
Theorem recipients_round_trip (l : list string) :
  Forall clean_address l -> recipients_of (String.concat "," l) = l.
Proof.
  intros Hall. unfold recipients_of.
  destruct l as [|x l]; [reflexivity|].
  rewrite split_of_concat;
    [|discriminate
     |eapply Forall_impl; [|exact Hall]; intros a (_ & _ & Ha); exact Ha].
  induction Hall as [|a l' (Hne & Hs & _) Hall IH]; [reflexivity|].
  simpl. rewrite Hs.
  destruct a as [|c a]; [congruence|]. simpl. rewrite Hs.
  f_equal. exact IH.
Qed.

Lemma split_once_spec (sep : ascii) (s before after : string) :
  split_once sep s = Some (before, after) ->
  s = (before ++ String sep after)%string /\ ~ In sep (chars before).
Proof.
  revert before. induction s as [|c s IH]; intros before; simpl; [discriminate|].
  destruct (Ascii.eqb_spec c sep) as [->|Hne].
  - intros [= <- <-]. split; [reflexivity|intros []].
  - destruct (split_once sep s) as [[b a]|] eqn:E; [|discriminate].
    intros [= <- <-]. destruct (IH b eq_refl) as [-> Hb].
    split; [reflexivity|]. intros [H|H]; [congruence|now apply Hb].
Qed.

Lemma split_once_app (sep : ascii) (k v : string) :
  ~ In sep (chars k) -> split_once sep (k ++ String sep v) = Some (k, v).
Proof.
  induction k as [|c k IH]; simpl; intros Hno.
  - now rewrite Ascii.eqb_refl.
  - destruct (Ascii.eqb_spec c sep) as [->|Hne];
      [exfalso; apply Hno; now left|].
    rewrite IH; [reflexivity|]. intros H. apply Hno. now right.
Qed.

Lemma chars_app (a b : string) : chars (a ++ b) = (chars a ++ chars b)%list.
Proof.
  unfold chars. induction a as [|c a IH]; [reflexivity|].
  simpl. now rewrite IH.
Qed.

(** X14: the reader of [.env] takes an assignment only from a line that,
    once trimmed, is not a comment and holds an equals sign; the key is
    the trimmed text before the first equals sign, so it never holds one
    and has no surrounding whitespace, and the rest of the line, later
    equals signs included, goes to the value. *)
Theorem env_assignment_key (line key value : string) :
  env_assignment line = Some (key, value) ->
  String.prefix "#" (PyStr.strip line) = false /\
  ~ In "="%char (chars key) /\ PyStr.strip key = key /\
  exists before after,
    PyStr.strip line = (before ++ String "=" after)%string /\
    key = PyStr.strip before /\ value = unquote after /\
    ~ In "="%char (chars before).
Proof.
  unfold env_assignment.
  destruct (PyStr.truthy (PyStr.strip line)); [|discriminate].
  destruct (String.prefix "#" (PyStr.strip line)) eqn:Ep; [discriminate|].
  cbn [negb andb].
  destruct (split_once "=" (PyStr.strip line)) as [[b a]|] eqn:Es;
    [|discriminate].
  intros [= <- <-]. apply split_once_spec in Es. destruct Es as [Hline Hb].
  split; [reflexivity|]. split; [|split].
  - intros H. apply strip_chars in H. now apply Hb.
  - apply strip_idempotent.
  - exists b, a. auto.
Qed.

Lemma prefix_hash_app (k r : string) :
  k <> "" -> String.prefix "#" (k ++ r) = String.prefix "#" k.
Proof.
  destruct k as [|c k]; [congruence|]. intros _.
  cbn [String.prefix String.append].
  destruct (ascii_dec "#" c); [|reflexivity].
  destruct (k ++ r)%string, k; reflexivity.
Qed.

(** X15: a line written as key, equals sign, value is read back as that
    key and that value, with or without the newline that ends it, for a
    clean key (not empty, trimmed, without equals sign, not starting a
    comment) and a plain value (trimmed, no quotes at its ends). *)
Theorem env_assignment_round_trip (k v : string) :
  clean_key k -> plain_value v ->
  env_assignment (k ++ "=" ++ v) = Some (k, v) /\
  env_assignment (k ++ "=" ++ v ++ EmailSender.newline) = Some (k, v).
Proof.
  intros (Hne & Hk & Hno & Hhash) (Hv & Hdq & Hsq).
  assert (Hlead : lead_ok k) by (rewrite <- Hk; apply strip_lead_ok).
  destruct (strip_fixed_parts v Hv) as [_ Hrv].
  assert (Hr : PyStr.rstrip ("=" ++ v) = ("=" ++ v)%string).
  { destruct v as [|c v]; [reflexivity|].
    apply rstrip_cons_fixed; [exact Hrv|discriminate]. }
  assert (Hline : PyStr.strip (k ++ "=" ++ v) = (k ++ "=" ++ v)%string).
  { unfold PyStr.strip. rewrite lstrip_app_fixed by assumption.
    apply rstrip_app_fixed; [exact Hr|discriminate]. }
  assert (Hparse : env_assignment (k ++ "=" ++ v) = Some (k, v)).
  { unfold env_assignment. rewrite Hline.
    rewrite truthy_nonempty by (destruct k; [congruence|discriminate]).
    rewrite prefix_hash_app by exact Hne. rewrite Hhash. cbn [negb andb].
    change (k ++ "=" ++ v)%string with (k ++ String "=" v)%string.
    rewrite split_once_app by exact Hno.
    unfold unquote. now rewrite Hk, Hv, Hdq, Hsq. }
  split; [exact Hparse|].
  assert (Hnl : PyStr.strip (k ++ "=" ++ v ++ EmailSender.newline) =
                (k ++ "=" ++ v)%string).
  { unfold PyStr.strip. rewrite lstrip_app_fixed by assumption.
    replace (k ++ "=" ++ v ++ EmailSender.newline)%string
      with ((k ++ "=" ++ v) ++ EmailSender.newline)%string.
    - rewrite rstrip_newline.
      apply rstrip_app_fixed; [exact Hr|discriminate].
    - clear. induction k as [|c k IH]; [reflexivity|].
      simpl. simpl in IH. now rewrite IH. }
  unfold env_assignment in *. rewrite Hnl. rewrite Hline in Hparse.
  exact Hparse.
Qed.

End ConfigFacts.

(* ================================================================== *)
(** * The access token *)

Section AccessToken.
Import Auth.

Lemma get_headers_cached (response : TokenResponse) (token : string) (n : nat) :
  token <> "" ->
  get_headers response (mkState (Some token) n) =
  inl (headers_for (Some token), mkState (Some token) n).
Proof.
  intros Hne. unfold get_headers. cbn [access_token get_or].
  now rewrite (truthy_nonempty token Hne).
Qed.

Lemma get_headers_run_cached (responses : list TokenResponse)
    (token : string) (n : nat) :
  token <> "" ->
  get_headers_run responses (mkState (Some token) n) =
  inl (repeat (headers_for (Some token)) (List.length responses),
       mkState (Some token) n).
Proof.
  intros Hne. induction responses as [|r responses IH]; [reflexivity|].
  cbn [get_headers_run]. rewrite (get_headers_cached r token n Hne), IH.
  reflexivity.
Qed.

(** X16: once a non-empty token is held, no call of [get_headers] asks for
    another, whatever the token endpoint would answer: every call returns
    the same headers, with that token. Starting without a token, a run of
    calls whose first request is granted sends exactly one request; a
    refused request raises and leaves no token. *)
Theorem token_requested_once (token : string) (later : list TokenResponse) :
  token <> "" ->
  (forall n,
      get_headers_run later (mkState (Some token) n) =
      inl (repeat (headers_for (Some token)) (List.length later),
           mkState (Some token) n)) /\
  (forall held n,
      PyStr.truthy (get_or held "") = false ->
      get_headers_run (Granted token :: later) (mkState held n) =
      inl (repeat (headers_for (Some token)) (S (List.length later)),
           mkState (Some token) (S n))) /\
  (forall held n text,
      PyStr.truthy (get_or held "") = false ->
      get_headers (Refused text) (mkState held n) =
      inr ("Authentication failed: " ++ text)%string) /\
  In ("Authorization", ("Bearer " ++ token)%string) (headers_for (Some token)).
Proof.
  intros Hne. split; [|split; [|split]].
  - intros n. now apply get_headers_run_cached.
  - intros held n Hheld. cbn [get_headers_run].
    unfold get_headers at 1. cbn [access_token]. rewrite Hheld.
    cbn [negb authenticate token_requests access_token].
    rewrite (get_headers_run_cached later token (S n) Hne). reflexivity.
  - intros held n text Hheld. unfold get_headers. cbn [access_token].
    rewrite Hheld. reflexivity.
  - left. reflexivity.
Qed.

End AccessToken.

(* ================================================================== *)
(** * The further properties at concrete inputs *)

Section MoreEvaluations.
Import ZoomAPI AttendanceReporter TimeHelper Spec Samples More.

Ltac distinct_strings :=
  vm_compute;
  repeat (constructor; [simpl; intuition discriminate|]);
  constructor.

Example deduplicate_mixed_sessions :
  option_map (map shown_name)
    (match _deduplicate_participants mixed_sessions with
     | Ok out => Some out
     | Raise _ => None
     end) = Some ["Alice"; "Bo"].
Proof. reflexivity. Qed.

Example recipients_with_blanks :
  Config.recipients_of "manager@company.com, hr@company.com ,, " = addresses.
Proof. reflexivity. Qed.

Example env_lines :
  map Config.env_assignment
    ["SMTP_PORT=587"; "# comment=1"; "EMAIL_RECIPIENTS = 'a@x.com,b@y.com' ";
     "no assignment"; ""] =
  [Some ("SMTP_PORT", "587"); None;
   Some ("EMAIL_RECIPIENTS", "a@x.com,b@y.com"); None; None].
Proof. reflexivity. Qed.

Example participant_list_sample :
  EmailSender.participant_list ["bob"; "Alice"; "bob"; "No attendees"] =
  String.concat EmailSender.newline ["Alice"; "No attendees"; "bob"].
Proof. reflexivity. Qed.

(** X1 at the two sessions of Alice, listed in both orders. *)
Lemma combined_record_order_independent_witness :
  Permutation alice_sessions [alice_2; alice_1] /\
  NoDup (map join_key alice_sessions) /\
  _combine_sessions alice_sessions = _combine_sessions [alice_2; alice_1].
Proof.
  assert (H1 : Permutation alice_sessions [alice_2; alice_1])
    by apply perm_swap.
  assert (H2 : NoDup (map join_key alice_sessions)) by distinct_strings.
  split; [exact H1|]. split; [exact H2|].
  exact (proj1 (combined_record_order_independent _ _ H1 H2)).
Defined.

(** X4 at three participants with three identities. *)
Lemma distinct_participants_unchanged_witness :
  NoDup (map identity_key three_people) /\
  _deduplicate_participants three_people = Ok three_people.
Proof.
  assert (H : NoDup (map identity_key three_people)) by distinct_strings.
  split; [exact H|]. exact (distinct_participants_unchanged _ H).
Defined.

(** X6 at the occurrence reported by both requests. *)
Lemma returned_instances_are_in_window_witness :
  In from_listing
    (get_meeting_instances "123" [from_instances] [from_listing]
       midnight midnight) /\
  started_since midnight from_listing = true /\
  truthy (occurrence_id from_listing) = true.
Proof.
  assert (H : In from_listing
                (get_meeting_instances "123" [from_instances] [from_listing]
                   midnight midnight)) by (left; reflexivity).
  split; [exact H|].
  exact (proj2 (returned_instances_are_in_window _ _ _ _ _ _ H)).
Defined.

(** X7 with the cutoffs at midnight and at noon. *)
Lemma get_meetings_narrows_witness :
  DateTime.leb midnight noon = true /\
  get_meetings (get_meetings [from_instances; undated; from_listing] midnight)
    noon =
  get_meetings [from_instances; undated; from_listing] noon.
Proof.
  assert (H : DateTime.leb midnight noon = true) by reflexivity.
  split; [exact H|].
  exact (proj1 (get_meetings_narrows _ _ _ H)).
Defined.

(** X9 at a start time that is no timestamp. *)
Lemma row_columns_bounded_witness :
  "15/01/2024 18:00" <> "" /\ "15/01/2024 18:00" <> "Unknown" /\
  convert fixed_text "%H:%M" "15/01/2024 18:00" = None /\
  meeting_time (row_for fixed_text "15/01/2024 18:00" "Alice") = "15/01".
Proof.
  assert (H1 : "15/01/2024 18:00" <> "") by discriminate.
  assert (H2 : "15/01/2024 18:00" <> "Unknown") by discriminate.
  assert (H3 : convert fixed_text "%H:%M" "15/01/2024 18:00" = None)
    by reflexivity.
  split; [exact H1|]. split; [exact H2|]. split; [exact H3|].
  pose proof (row_columns_bounded fixed_text "15/01/2024 18:00" "Alice") as H.
  cbv zeta in H. destruct H as (_ & _ & Htime).
  exact (proj2 (Htime H1 H2 H3)).
Defined.

(** X10 at a list of names with a repetition. *)
Lemma participant_list_sorted_unique_witness :
  ["bob"; "Alice"; "bob"] <> [] /\
  EmailSender.participant_list ["bob"; "Alice"; "bob"] =
  String.concat EmailSender.newline
    (EmailSender.sorted_names (EmailSender.set_of ["bob"; "Alice"; "bob"])).
Proof.
  assert (H : ["bob"; "Alice"; "bob"] <> []) by discriminate.
  split; [exact H|].
  pose proof (participant_list_sorted_unique ["bob"; "Alice"; "bob"]) as Hl.
  cbv zeta in Hl. destruct Hl as (_ & _ & _ & Hlist).
  exact (Hlist H).
Defined.

(** X11 at two lists with the same names. *)
Lemma participant_list_of_set_witness :
  (forall x, In x ["Alice"; "bob"; "Alice"] <-> In x ["bob"; "Alice"; "bob"]) /\
  EmailSender.participant_list ["Alice"; "bob"; "Alice"] =
  EmailSender.participant_list ["bob"; "Alice"; "bob"].
Proof.
  assert (H : forall x, In x ["Alice"; "bob"; "Alice"] <->
                        In x ["bob"; "Alice"; "bob"])
    by (intros x; simpl; tauto).
  split; [exact H|].
  exact (proj2 (participant_list_of_set ["bob"; "Alice"; "bob"]) _ H).
Defined.

(** X12 at a setting with blanks between the commas. *)
Lemma recipients_are_clean_witness :
  In "hr@company.com"
    (Config.recipients_of "manager@company.com, hr@company.com ,, ") /\
  clean_address "hr@company.com".
Proof.
  assert (H : In "hr@company.com"
                (Config.recipients_of "manager@company.com, hr@company.com ,, "))
    by (right; left; reflexivity).
  split; [exact H|]. exact (recipients_are_clean _ _ H).
Defined.

(** X13 at the two addresses of the template. *)
Lemma recipients_round_trip_witness :
  Forall clean_address addresses /\
  Config.recipients_of (String.concat "," addresses) = addresses.
Proof.
  assert (H : Forall clean_address addresses).
  { repeat constructor; try discriminate;
      unfold chars; simpl; intuition discriminate. }
  split; [exact H|]. exact (recipients_round_trip _ H).
Defined.

(** X14 at a line with spaces, quotes and a second equals sign. *)
Lemma env_assignment_key_witness :
  Config.env_assignment "KEY = 'a=b' " = Some ("KEY", "a=b") /\
  ~ In "="%char (chars "KEY") /\ PyStr.strip "KEY" = "KEY".
Proof.
  assert (H : Config.env_assignment "KEY = 'a=b' " = Some ("KEY", "a=b"))
    by reflexivity.
  split; [exact H|].
  destruct (env_assignment_key _ _ _ H) as (_ & Hk & Hs & _).
  split; [exact Hk|exact Hs].
Defined.

(** X15 at the port of the template. *)
Lemma env_assignment_round_trip_witness :
  clean_key "SMTP_PORT" /\ plain_value "587" /\
  Config.env_assignment ("SMTP_PORT" ++ "=" ++ "587") =
  Some ("SMTP_PORT", "587").
Proof.
  assert (H1 : clean_key "SMTP_PORT").
  { split; [discriminate|]. split; [reflexivity|]. split; [|reflexivity].
    unfold chars. simpl. intuition discriminate. }
  assert (H2 : plain_value "587") by (repeat split).
  split; [exact H1|]. split; [exact H2|].
  exact (proj1 (env_assignment_round_trip _ _ H1 H2)).
Defined.

(** X16 at a token held from the first call on. *)
Lemma token_requested_once_witness :
  "abc123" <> "" /\
  Auth.get_headers_run
    [Auth.Granted "abc123"; Auth.Refused "down"; Auth.Granted "other"]
    (Auth.mkState None 0) =
  inl (repeat (Auth.headers_for (Some "abc123")) 3,
       Auth.mkState (Some "abc123") 1).
Proof.
  assert (H : "abc123" <> "") by discriminate.
  split; [exact H|].
  destruct (token_requested_once "abc123"
              [Auth.Refused "down"; Auth.Granted "other"] H)
    as (_ & Hfirst & _).
  exact (Hfirst None 0%nat eq_refl).
Defined.

End MoreEvaluations.

(* ================================================================== *)
(** * From the report to the message *)

Section ReportToMessage.
Import ZoomAPI AttendanceReporter EmailSender More.

Variable la_strftime : string -> DateTime.t -> option string.
Variable get_participants : string -> list Participant.
Variable past_instances : string -> list Meeting.
Variable all_meetings : list Meeting.
Variables cutoff_user cutoff_time : DateTime.t.

(** X17: the names listed in the body of the message are exactly the
    participant names of the rows of the attached report (the placeholder
    of an empty meeting included): [send_report] is given the second
    result of [generate_report]. *)
Theorem message_lists_report_names (meeting_id : option string) :
  exists rows names,
    generate_report la_strftime get_participants past_instances
      all_meetings cutoff_user cutoff_time meeting_id = Ok (rows, names) /\
    forall x,
      In x (sorted_names (set_of names)) <->
      exists row, In row rows /\ participant_name row = x.
Proof.
  unfold generate_report.
  match goal with
  | |- context [AttendanceReporter.report_of _ _ ?ms] =>
      destruct (report_of_aligned la_strftime get_participants ms)
        as (rows & names & Hr & Hmap)
  end.
  exists rows, names. split; [exact Hr|]. intros x.
  destruct (set_of_enumerates names) as [_ Hin].
  transitivity (In x names).
  - rewrite <- Hin. split; apply Permutation_in;
      [apply sorted_names_perm|symmetry; apply sorted_names_perm].
  - rewrite <- Hmap, in_map_iff. split; intros (row & H1 & H2); eauto.
Qed.

End ReportToMessage.
